(** * The Locust load-test script of the card-fraud rule engine

    A shallow embedding of [load-testing/locustfile.py]: the values the
    script handles, the effects it performs (module-level token cache,
    printing, blocking HTTP calls, random draws, [sys.exit]) as a small
    resumption monad, and the script's functions written in that monad. *)

From Stdlib Require Import ZArith QArith String Ascii List Floats.
From Stdlib Require Uint63.
From stdpp Require Import gmap strings list pretty.

Set Warnings "-register-all,-inexact-float".
Local Open Scope Z_scope.

(** ** Python values

    The values [json.loads] can return, which are also the values the token
    cache and the f-strings of the script see.  [VNone] is Python's [None]. *)

Inductive pyval : Type :=
| VNone
| VBool (b : bool)
| VInt (n : Z)
| VFloat (f : float)
| VStr (s : string)
| VList (items : list pyval)
| VDict (items : list (string * pyval)).

(** [bool(v)], as used by [if token:]. *)
Definition truthy (v : pyval) : bool :=
  match v with
  | VNone => false
  | VBool b => b
  | VInt n => negb (n =? 0)
  | VFloat f => negb (PrimFloat.eqb f 0%float)
  | VStr s => negb (String.eqb s "")
  | VList l => match l with [] => false | _ => true end
  | VDict l => match l with [] => false | _ => true end
  end.

(** [v is not None]. *)
Definition is_not_None (v : pyval) : bool :=
  match v with VNone => false | _ => true end.

(** [type(v).__name__]. *)
Definition type_name (v : pyval) : string :=
  match v with
  | VNone => "NoneType"
  | VBool _ => "bool"
  | VInt _ => "int"
  | VFloat _ => "float"
  | VStr _ => "str"
  | VList _ => "list"
  | VDict _ => "dict"
  end.

(** [v == s] for a string literal [s]: only a [str] can be equal to it. *)
Definition eq_str (v : pyval) (s : string) : bool :=
  match v with VStr t => String.eqb t s | _ => false end.

(** [v in (s1, s2, ...)] for a tuple of string literals. *)
Definition in_strs (v : pyval) (ss : list string) : bool :=
  existsb (eq_str v) ss.

(** Lookup in the items of a [dict]. *)
Fixpoint assoc (k : string) (items : list (string * pyval)) : option pyval :=
  match items with
  | [] => None
  | (k', v) :: rest => if String.eqb k k' then Some v else assoc k rest
  end.

(** ** Strings *)

(** [c.lower()] on one character: the ASCII capitals are mapped to their
    small letters, every other byte is left as it is. *)
Definition lower_ascii (c : ascii) : ascii :=
  let n := N_of_ascii c in
  if ((65 <=? n) && (n <=? 90))%N then ascii_of_N (n + 32) else c.

(** [s.lower()]. *)
Fixpoint lower (s : string) : string :=
  match s with
  | EmptyString => EmptyString
  | String c s' => String (lower_ascii c) (lower s')
  end.

(** [s in (s1, s2, ...)] for strings. *)
Definition str_in (s : string) (ss : list string) : bool :=
  existsb (String.eqb s) ss.

(** [s.startswith(p)]. *)
Definition startswith (s p : string) : bool := String.prefix p s.

(** [s[:n]]. *)
Definition upto (n : nat) (s : string) : string := substring 0 n s.

(** [c * n] for a one-character string. *)
Fixpoint repeat_char (c : ascii) (n : nat) : string :=
  match n with O => EmptyString | S n' => String c (repeat_char c n') end.

(** [f"{i:04d}"] and the like: decimal digits, zero-padded on the left. *)
Definition zero_pad (width : nat) (i : nat) : string :=
  let d := pretty i in
  repeat_char "0" (width - String.length d) +:+ d.

Definition hex_digit (n : N) : ascii :=
  nth (N.to_nat n)
    ["0"; "1"; "2"; "3"; "4"; "5"; "6"; "7"; "8"; "9";
     "a"; "b"; "c"; "d"; "e"; "f"]%char "0"%char.

(** ['%0{width}x' % n] for [n] below [16 ^ width]. *)
Fixpoint hex_fixed (width : nat) (n : N) : string :=
  match width with
  | O => EmptyString
  | S w => hex_fixed w (n / 16) +:+ String (hex_digit (n mod 16)) EmptyString
  end.

(** ** Request payloads

    The generators return dict literals with a fixed set of keys; they are
    records here, one field per key.  Amounts are Python floats, that is
    binary64 numbers: Rocq's primitive [float]. *)

Record auth_request := {
  transaction_id : string;
  card_hash : string;
  amount : float;
  currency : string;
  country_code : string;
  merchant_id : string;
  merchant_name : string;
  merchant_category : string;
  merchant_category_code : string;
  card_present : bool;
  transaction_type : string;
  entry_mode : string;
  ip_address : string;
  device_id : string;
  card_network : string;
  card_bin : string
}.

Record monitoring_request := {
  m_transaction_id : string;
  m_card_hash : string;
  m_amount : float;
  m_currency : string;
  m_country_code : string;
  m_merchant_id : string;
  m_merchant_category_code : string;
  m_decision : string
}.

Inductive payload :=
| AuthPayload (p : auth_request)
| MonitoringPayload (p : monitoring_request).

(** ** What the script exchanges with the outside *)

(** Exceptions (subclasses of [Exception]) that carry a message only.
    [OtherError] stands for any class the script does not tell apart
    (a refused connection, a timeout, an [http.client.IncompleteRead]). *)
Inductive error :=
| UnicodeDecodeError (msg : string)
| JSONDecodeError (msg : string)
| ValueError (msg : string)
| RecursionError (msg : string)
| AttributeError (msg : string)
| IndexError (msg : string)
| LocustError (msg : string)
| OtherError (msg : string).

(** The body of an [HTTPError], as [e.read()] finds it: the call raises,
    or it returns bytes, given with what [.decode()] makes of them ([inl msg]
    is a [UnicodeDecodeError], [inr s] the text). *)
Inductive error_body :=
| Unreadable (e : error)
| Bytes (decoded : string + string).

(** The exceptions that reach the script's handlers.  [HTTPError] is what
    [urlopen] raises on a response outside 2xx: it carries the status code,
    the reason and the body. *)
Inductive exn :=
| HTTPError (code : Z) (reason : string) (body : error_body)
| Error (e : error).

Coercion Error : error >-> exn.

(** [str(e)]. *)
Definition error_str (e : error) : string :=
  match e with
  | UnicodeDecodeError m | JSONDecodeError m | ValueError m | RecursionError m
  | AttributeError m | IndexError m | LocustError m | OtherError m => m
  end.

Definition exn_str (e : exn) : string :=
  match e with
  | HTTPError code reason _ => "HTTP Error " +:+ pretty code +:+ ": " +:+ reason
  | Error e' => error_str e'
  end.

(** A [str] on which [json.loads] may be called, together with what the
    decoder makes of it: a value, or the exception it raises (a
    [JSONDecodeError] on malformed text, a [ValueError] on an integer of more
    than 4300 digits, a [RecursionError] on a text nested too deeply). *)
Record py_text := { chars : string; loads : error + pyval }.

(** A [bytes] object as returned by [read()], together with what
    [.decode()] makes of it: [inl msg] is a [UnicodeDecodeError]. *)
Definition py_bytes : Type := string + py_text.

(** The two places where the script calls [urllib.request.urlopen]. *)
Inductive site := IdentityEndpoint | RulesetBulkLoad.

(** [urllib.request.Request(url, data=..., headers=..., method=...)]; the
    data is the value handed to [json.dumps]. *)
Record http_request := {
  rq_url : string;
  rq_data : pyval;
  rq_headers : gmap string string;
  rq_method : string
}.

(** The arguments of a [self.client.post(...)] call of a virtual user. *)
Record post_call := {
  pc_path : string;
  pc_json : payload;
  pc_headers : gmap string string;
  pc_catch_response : bool;
  pc_name : option string
}.

(** The response object a virtual user gets back: [status_code], [text]
    and the outcome of [json()]: a value, or the exception the call raises
    (a [JSONDecodeError], or like [json.loads] a [ValueError] or a
    [RecursionError]). *)
Record http_response := {
  status_code : Z;
  text : string;
  json : error + pyval
}.

(** What is observable of a run, in order. *)
Inductive event :=
| EPrint (line : string)
| EUrlopen (s : site) (rq : http_request)
| EPost (c : post_call)
| ESuccess
| EFailure (msg : string).

(** ** Programs

    A program is a tree of the effects the script performs.  [SysExit] is
    [sys.exit] (a [SystemExit], which no [except Exception] catches),
    [Throw] raises an [Exception]. *)
Inductive prog (A : Type) : Type :=
| Ret (a : A)
| SysExit (code : Z)
| Throw (e : exn)
| Print (line : string) (k : prog A)
| GetCached (k : pyval -> prog A)
| SetCached (v : pyval) (k : prog A)
| Urlopen (s : site) (rq : http_request) (k : exn + py_bytes -> prog A)
| Random (k : N -> prog A)
| HttpUserInit (k : option error -> prog A)
| ClientPost (c : post_call) (k : http_response -> prog A)
| Success (k : prog A)
| Failure (msg : string) (k : prog A).

Arguments Ret {A} a.
Arguments SysExit {A} code.
Arguments Throw {A} e.
Arguments Print {A} line k.
Arguments GetCached {A} k.
Arguments SetCached {A} v k.
Arguments Urlopen {A} s rq k.
Arguments Random {A} k.
Arguments HttpUserInit {A} k.
Arguments ClientPost {A} c k.
Arguments Success {A} k.
Arguments Failure {A} msg k.

Fixpoint bind {A B} (p : prog A) (f : A -> prog B) : prog B :=
  match p with
  | Ret a => f a
  | SysExit c => SysExit c
  | Throw e => Throw e
  | Print l k => Print l (bind k f)
  | GetCached k => GetCached (fun v => bind (k v) f)
  | SetCached v k => SetCached v (bind k f)
  | Urlopen s rq k => Urlopen s rq (fun r => bind (k r) f)
  | Random k => Random (fun n => bind (k n) f)
  | HttpUserInit k => HttpUserInit (fun r => bind (k r) f)
  | ClientPost c k => ClientPost c (fun r => bind (k r) f)
  | Success k => Success (bind k f)
  | Failure m k => Failure m (bind k f)
  end.

#[global] Instance prog_ret : MRet prog := @Ret.
#[global] Instance prog_bind : MBind prog := fun A B f p => bind p f.

(** [try: p  except Exception as e: h e].  A [SystemExit] passes through. *)
Fixpoint try_except {A} (p : prog A) (h : exn -> prog A) : prog A :=
  match p with
  | Ret a => Ret a
  | SysExit c => SysExit c
  | Throw e => h e
  | Print l k => Print l (try_except k h)
  | GetCached k => GetCached (fun v => try_except (k v) h)
  | SetCached v k => SetCached v (try_except k h)
  | Urlopen s rq k => Urlopen s rq (fun r => try_except (k r) h)
  | Random k => Random (fun n => try_except (k n) h)
  | HttpUserInit k => HttpUserInit (fun r => try_except (k r) h)
  | ClientPost c k => ClientPost c (fun r => try_except (k r) h)
  | Success k => Success (try_except k h)
  | Failure m k => Failure m (try_except k h)
  end.

Definition print (line : string) : prog unit := Print line (Ret tt).
Definition sys_exit {A} (code : Z) : prog A := SysExit code.
Definition get_cached_token : prog pyval := GetCached Ret.
Definition set_cached_token (v : pyval) : prog unit := SetCached v (Ret tt).
Definition response_success : prog unit := Success (Ret tt).
Definition response_failure (msg : string) : prog unit := Failure msg (Ret tt).
Definition client_post (c : post_call) : prog http_response := ClientPost c Ret.

(** [urllib.request.urlopen(req, timeout=30)] followed by [response.read()]:
    raises what the call raises, else gives the bytes of the body. *)
Definition urlopen (s : site) (rq : http_request) : prog py_bytes :=
  Urlopen s rq (fun r => match r with inl e => Throw e | inr b => Ret b end).

(** [b.decode()] on bytes given with what the call makes of them. *)
Definition decode {A} (b : string + A) : prog A :=
  match b with
  | inl msg => Throw (UnicodeDecodeError msg)
  | inr t => Ret t
  end.

(** [e.read()] on an [HTTPError]. *)
Definition http_error_read (body : error_body) : prog (string + string) :=
  match body with
  | Unreadable e => Throw e
  | Bytes b => Ret b
  end.

(** [json.loads(t)]. *)
Definition json_loads (t : py_text) : prog pyval :=
  match loads t with
  | inl e => Throw e
  | inr v => Ret v
  end.

(** [response.json()]. *)
Definition response_json (r : http_response) : prog pyval :=
  match json r with
  | inl e => Throw e
  | inr v => Ret v
  end.

(** [super().__init__] with the arguments of the call, in a subclass of
    Locust's [HttpUser]: the constructor of the framework, which raises (a
    [LocustError] when the run has no host) or returns. *)
Definition HttpUser___init__ : prog unit :=
  HttpUserInit (fun r => match r with Some e => Throw e | None => Ret tt end).

(** [v.get(key, default)]: only a dict has the method. *)
Definition dict_get (v : pyval) (key : string) (default : pyval) : prog pyval :=
  match v with
  | VDict items => Ret (match assoc key items with Some x => x | None => default end)
  | _ => Throw (AttributeError
                  ("'" +:+ type_name v +:+ "' object has no attribute 'get'"))
  end.

(** ** Running a program

    The process state is the module-level token cache and the position in
    the random stream; the world answers the blocking calls, gives the
    random stream and says what the constructor of the framework's user
    class does. *)
Record globals := { _cached_token : pyval; rng_cursor : nat }.

Record world := {
  urlopen_answer : site -> http_request -> exn + py_bytes;
  target_answer : post_call -> http_response;
  entropy : nat -> N;
  http_user_init : option error
}.

Inductive outcome (A : Type) :=
| Returned (a : A)
| Exited (code : Z)
| Raised (e : exn).
Arguments Returned {A} a.
Arguments Exited {A} code.
Arguments Raised {A} e.

Definition emit {A} (e : event) (r : outcome A * globals * list event) :
  outcome A * globals * list event :=
  let '(o, g, t) := r in (o, g, e :: t).

Fixpoint run {A} (w : world) (p : prog A) (g : globals) :
  outcome A * globals * list event :=
  match p with
  | Ret a => (Returned a, g, [])
  | SysExit c => (Exited c, g, [])
  | Throw e => (Raised e, g, [])
  | Print l k => emit (EPrint l) (run w k g)
  | GetCached k => run w (k (_cached_token g)) g
  | SetCached v k => run w k {| _cached_token := v; rng_cursor := rng_cursor g |}
  | Urlopen s rq k => emit (EUrlopen s rq) (run w (k (urlopen_answer w s rq)) g)
  | Random k =>
      run w (k (entropy w (rng_cursor g)))
        {| _cached_token := _cached_token g; rng_cursor := S (rng_cursor g) |}
  | HttpUserInit k => run w (k (http_user_init w)) g
  | ClientPost c k => emit (EPost c) (run w (k (target_answer w c)) g)
  | Success k => emit ESuccess (run w k g)
  | Failure m k => emit (EFailure m) (run w k g)
  end.

(** The same program called once per world of a list, one call after the
    other; the calls stop when the process exits. *)
Fixpoint run_each {A} (ws : list world) (p : prog A) (g : globals) :
  list (outcome A) * globals * list event :=
  match ws with
  | [] => ([], g, [])
  | w :: ws' =>
      let '(o, g1, t1) := run w p g in
      match o with
      | Exited _ => ([o], g1, t1)
      | _ => let '(os, g2, t2) := run_each ws' p g1 in (o :: os, g2, t1 ++ t2)
      end
  end.

(** ** Virtual users running side by side

    Virtual users are cooperative threads of one process: a thread runs
    until it makes a blocking call ([urlopen], [client.post]) and is resumed
    with the answer when it is scheduled again; the globals are shared.
    [Waiting p] is a thread that will run [p] when scheduled. *)
Inductive thread (A : Type) :=
| Waiting (p : prog A)
| Finished (o : outcome A).
Arguments Waiting {A} p.
Arguments Finished {A} o.

(** One turn of a thread: up to its next blocking call, or to its end. *)
Fixpoint run_segment {A} (w : world) (p : prog A) (g : globals) :
  thread A * globals * list event :=
  match p with
  | Ret a => (Finished (Returned a), g, [])
  | SysExit c => (Finished (Exited c), g, [])
  | Throw e => (Finished (Raised e), g, [])
  | Print l k =>
      let '(th, g', t) := run_segment w k g in (th, g', EPrint l :: t)
  | GetCached k => run_segment w (k (_cached_token g)) g
  | SetCached v k =>
      run_segment w k {| _cached_token := v; rng_cursor := rng_cursor g |}
  | Urlopen s rq k => (Waiting (k (urlopen_answer w s rq)), g, [EUrlopen s rq])
  | Random k =>
      run_segment w (k (entropy w (rng_cursor g)))
        {| _cached_token := _cached_token g; rng_cursor := S (rng_cursor g) |}
  | HttpUserInit k => run_segment w (k (http_user_init w)) g
  | ClientPost c k => (Waiting (k (target_answer w c)), g, [EPost c])
  | Success k =>
      let '(th, g', t) := run_segment w k g in (th, g', ESuccess :: t)
  | Failure m k =>
      let '(th, g', t) := run_segment w k g in (th, g', EFailure m :: t)
  end.

(** [sys.exit] in any thread ends the process. *)
Definition has_exited {A} (th : thread A) : bool :=
  match th with Finished (Exited _) => true | _ => false end.

(** Thread [i] gets one turn, unless it has finished or the process has
    exited. *)
Definition turn {A} (w : world) (i : nat) (ths : list (thread A)) (g : globals) :
  list (thread A) * globals * list event :=
  if existsb has_exited ths then (ths, g, [])
  else
    match ths !! i with
    | Some (Waiting p) =>
        let '(th, g', t) := run_segment w p g in (<[i := th]> ths, g', t)
    | _ => (ths, g, [])
    end.

(** The threads take their turns in the order of the schedule. *)
Fixpoint interleave {A} (w : world) (schedule : list nat)
    (ths : list (thread A)) (g : globals) :
  list (thread A) * globals * list event :=
  match schedule with
  | [] => (ths, g, [])
  | i :: rest =>
      let '(ths1, g1, t1) := turn w i ths g in
      let '(ths2, g2, t2) := interleave w rest ths1 g1 in
      (ths2, g2, t1 ++ t2)
  end.

(** The requests sent to the identity endpoint in a trace. *)
Definition is_token_request (e : event) : bool :=
  match e with EUrlopen IdentityEndpoint _ => true | _ => false end.

Definition token_requests (t : list event) : nat :=
  length (List.filter is_token_request t).

Definition is_bulk_load (e : event) : bool :=
  match e with EUrlopen RulesetBulkLoad _ => true | _ => false end.

Definition bulk_loads (t : list event) : nat :=
  length (List.filter is_bulk_load t).

(** The headers of an outbound request, for the events that are one. *)
Definition outbound_headers (e : event) : option (gmap string string) :=
  match e with
  | EUrlopen _ rq => Some (rq_headers rq)
  | EPost c => Some (pc_headers c)
  | _ => None
  end.

Definition no_authorization (e : event) : Prop :=
  match outbound_headers e with
  | Some h => h !! "Authorization" = None
  | None => True
  end.

(** An event that neither asks the identity endpoint for a token nor
    sends an [Authorization] header. *)
Definition no_credentials (e : event) : Prop :=
  is_token_request e = false /\ no_authorization e.

(** ** The [random] and [uuid] modules

    Every draw takes the next number of the stream; the library functions
    reduce it to the range they document. *)

Definition randbelow (n : N) : prog N :=
  r ← Random Ret; mret (r mod n)%N.

(** [random.choice(seq)]. *)
Definition random_choice {A} (seq : list A) : prog A :=
  match seq with
  | [] => Throw (IndexError "Cannot choose from an empty sequence")
  | _ =>
      i ← randbelow (N.of_nat (length seq));
      match seq !! N.to_nat i with
      | Some x => mret x
      | None => Throw (IndexError "list index out of range")
      end
  end.

(** [random.randint(a, b)]: both ends included. *)
Definition random_randint (a b : Z) : prog Z :=
  i ← randbelow (Z.to_N (b - a + 1)); mret (a + Z.of_N i).

(** [float(n)] for an integer [n] of [[0, 2^63)]. *)
Definition py_float (n : Z) : float := PrimFloat.of_uint63 (Uint63.of_Z n).

(** [random.random()]: 53 random bits [k] scaled by [2^-53]; CPython
    computes [(a * 67108864.0 + b) * (1.0 / 9007199254740992.0)] from the 27
    high bits [a] and the 26 low bits [b] of [k], and the sum is [float(k)]
    exactly. *)
Definition random_random : prog float :=
  r ← Random Ret; mret (py_float (Z.of_N (r mod 2 ^ 53)) * 0x1p-53)%float.

(** [random.uniform(a, b)], that is [a + (b - a) * self.random()] in
    binary64 arithmetic. *)
Definition random_uniform (a b : float) : prog float :=
  u ← random_random; mret (a + (b - a) * u)%float.

(** Rounding to the nearest integer, ties to even. *)
Definition round_half_even (x : Q) : Z :=
  let n := Qnum x in
  let d := Zpos (Qden x) in
  let q := n / d in
  let r := n mod d in
  match 2 * r ?= d with
  | Lt => q
  | Gt => q + 1
  | Eq => if Z.even q then q else q + 1
  end.

(** The number a finite float with mantissa [m] and exponent [e] stands
    for: [m * 2^e]. *)
Definition float_value (m : positive) (e : Z) : Q :=
  Z.pos m * 2 ^ Z.max e 0 # Z.to_pos (2 ^ Z.max (- e) 0).

(** [round(x, 2)] on a float: CPython rounds the number [x] stands for to
    the nearest multiple of [1/100], ties to even, and returns the float
    nearest to that decimal.  Below [2^46] the multiple is [cents / 100] with
    [cents] under [2^53], so that [float(cents) / 100.0], one division
    rounded to nearest, is that float; from [2^46] on, neighbouring floats
    are more than [0.01] apart and [x] itself is the nearest.  Zeros,
    infinities and NaN round to themselves. *)
Definition round2 (x : float) : float :=
  match Prim2SF x with
  | S754_finite s m e =>
      if 46 <? Z.pos (digits2_pos m) + e then x
      else
        let cents := round_half_even (float_value m e * inject_Z 100) in
        let r := (py_float cents / 100)%float in
        if s then (- r)%float else r
  | _ => x
  end.

(** [uuid.uuid4()] as an integer: 128 random bits with the variant and the
    version (4) set. *)
Definition uuid4 : prog N :=
  r ← Random Ret;
  let int := (r mod 2 ^ 128)%N in
  let int := N.ldiff int (N.shiftl 0xc000 48) in
  let int := N.lor int (N.shiftl 0x8000 48) in
  let int := N.ldiff int (N.shiftl 0xf000 64) in
  let int := N.lor int (N.shiftl 4 76) in
  mret int.

(** [u.hex]. *)
Definition uuid_hex (u : N) : string := hex_fixed 32 u.

(** ** Test data pools *)

Definition CURRENCIES : list string := ["USD"; "GBP"; "EUR"; "CAD"; "AUD"; "JPY"].
Definition COUNTRIES : list string :=
  ["US"; "GB"; "CA"; "DE"; "FR"; "AU"; "JP"; "IN"; "BR"; "MX"].
Definition MERCHANT_CATEGORIES : list string :=
  ["5411"; "5999"; "5734"; "5812"; "5541"; "5942"; "5912"].
Definition TRANSACTION_TYPES : list string := ["PURCHASE"; "REFUND"; "AUTHORIZATION"].
Definition ENTRY_MODES : list string :=
  ["ECOM"; "CHIP"; "MAGSTRIPE"; "CONTACTLESS"; "MANUAL"].
Definition CARD_HASHES : list string :=
  map (fun i => "card_hash_" +:+ zero_pad 4 i) (seq 0 100).

(** ** Request generators *)

Definition generate_transaction_id : prog string :=
  u ← uuid4; mret ("txn-" +:+ upto 16 (uuid_hex u)).

Definition visa_bins : list string := ["411111"; "400000"; "450000"].
Definition mc_bins : list string := ["555555"; "520000"; "540000"].
Definition amex_bins : list string := ["340000"; "370000"].

Definition generate_card_bin : prog string :=
  random_choice (visa_bins ++ mc_bins ++ amex_bins).

Definition generate_AUTH_request : prog auth_request :=
  card_bin ← generate_card_bin;
  let network :=
    if startswith card_bin "4" then "VISA"
    else if startswith card_bin "5" then "MASTERCARD" else "AMEX" in
  transaction_id ← generate_transaction_id;
  card_hash ← random_choice CARD_HASHES;
  x ← random_uniform 10.0 2000.0;
  currency ← random_choice CURRENCIES;
  country_code ← random_choice COUNTRIES;
  merchant ← random_randint 1000 9999;
  merchant_nr ← random_randint 1 100;
  merchant_category ← random_choice MERCHANT_CATEGORIES;
  merchant_category_code ← random_choice MERCHANT_CATEGORIES;
  card_present ← random_choice [true; false];
  transaction_type ← random_choice TRANSACTION_TYPES;
  entry_mode ← random_choice ENTRY_MODES;
  ip3 ← random_randint 0 255;
  ip4 ← random_randint 0 255;
  device ← random_randint 1000 9999;
  mret {|
    transaction_id := transaction_id;
    card_hash := card_hash;
    amount := round2 x;
    currency := currency;
    country_code := country_code;
    merchant_id := "merch_" +:+ pretty merchant;
    merchant_name := "Test Merchant " +:+ pretty merchant_nr;
    merchant_category := merchant_category;
    merchant_category_code := merchant_category_code;
    card_present := card_present;
    transaction_type := transaction_type;
    entry_mode := entry_mode;
    ip_address := "192.168." +:+ pretty ip3 +:+ "." +:+ pretty ip4;
    device_id := "device_" +:+ pretty device;
    card_network := network;
    card_bin := card_bin
  |}.

Definition generate_MONITORING_request : prog monitoring_request :=
  transaction_id ← generate_transaction_id;
  card_hash ← random_choice CARD_HASHES;
  x ← random_uniform 10.0 500.0;
  currency ← random_choice CURRENCIES;
  country_code ← random_choice COUNTRIES;
  merchant ← random_randint 1000 9999;
  merchant_category_code ← random_choice MERCHANT_CATEGORIES;
  decision ← random_choice ["APPROVE"; "DECLINE"];
  mret {|
    m_transaction_id := transaction_id;
    m_card_hash := card_hash;
    m_amount := round2 x;
    m_currency := currency;
    m_country_code := country_code;
    m_merchant_id := "merch_" +:+ pretty merchant;
    m_merchant_category_code := merchant_category_code;
    m_decision := decision
  |}.

(** [req["card_hash"] = h] and [req["amount"] = a] on an AUTH payload. *)
Definition set_card_hash (h : string) (req : auth_request) : auth_request :=
  {| transaction_id := transaction_id req; card_hash := h; amount := amount req;
     currency := currency req; country_code := country_code req;
     merchant_id := merchant_id req; merchant_name := merchant_name req;
     merchant_category := merchant_category req;
     merchant_category_code := merchant_category_code req;
     card_present := card_present req; transaction_type := transaction_type req;
     entry_mode := entry_mode req; ip_address := ip_address req;
     device_id := device_id req; card_network := card_network req;
     card_bin := card_bin req |}.

Definition set_amount (a : float) (req : auth_request) : auth_request :=
  {| transaction_id := transaction_id req; card_hash := card_hash req; amount := a;
     currency := currency req; country_code := country_code req;
     merchant_id := merchant_id req; merchant_name := merchant_name req;
     merchant_category := merchant_category req;
     merchant_category_code := merchant_category_code req;
     card_present := card_present req; transaction_type := transaction_type req;
     entry_mode := entry_mode req; ip_address := ip_address req;
     device_id := device_id req; card_network := card_network req;
     card_bin := card_bin req |}.

Definition generate_velocity_burst_request : prog auth_request :=
  req ← generate_AUTH_request;
  let req := set_card_hash "velocity_test_card" req in
  x ← random_uniform 50.0 200.0;
  let req := set_amount (round2 x) req in
  mret req.

(** ** Virtual users *)

(** A user object: the headers computed by [__init__] and the [verify]
    flag of the HTTP client that the constructor of [HttpUser] creates. *)
Record user := { headers : gmap string string; client_verify : bool }.

(** [wait_time = between(lo, hi)] or [constant(t)]. *)
Inductive pacing := between (lo hi : Q) | constant (t : Q).

(** A user class as the load-testing framework sees it: its pacing, its
    constructor, its [on_start] and its tasks with their weights. *)
Record user_class := {
  class_name : string;
  wait_time : pacing;
  init : prog user;
  on_start : user -> user;
  tasks : list (nat * (user -> prog unit))
}.

Section Script.

(** [repr] of floats and containers, used by [str] on them. *)
Variable py_repr : pyval -> string.

(** [os.environ] when the module is imported. *)
Variable environ : gmap string string.

(** [str(v)], as the f-strings apply it. *)
Definition py_str (v : pyval) : string :=
  match v with
  | VNone => "None"
  | VBool true => "True"
  | VBool false => "False"
  | VInt n => pretty n
  | VStr s => s
  | VFloat _ | VList _ | VDict _ => py_repr v
  end.

(** [os.environ.get(key, default)]. *)
Definition os_environ_get (key dflt : string) : string :=
  match environ !! key with Some v => v | None => dflt end.

(** *** Configuration *)

Definition NO_AUTH : bool :=
  str_in (lower (os_environ_get "NO_AUTH" "false")) ["true"; "1"; "yes"].

Definition AUTH0_DOMAIN : string := os_environ_get "AUTH0_DOMAIN" "".
Definition AUTH0_CLIENT_ID : string := os_environ_get "AUTH0_CLIENT_ID" "".
Definition AUTH0_CLIENT_SECRET : string := os_environ_get "AUTH0_CLIENT_SECRET" "".
Definition AUTH0_AUDIENCE : string := os_environ_get "AUTH0_AUDIENCE" "".
Definition TARGET_HOST : string := os_environ_get "TARGET_HOST" "http://localhost:8081".

(** [all([s1, s2, ...])] on strings: none of them is empty. *)
Definition all_set (ss : list string) : bool :=
  forallb (fun s => negb (String.eqb s "")) ss.

(** *** The shared token *)

Definition _get_shared_token : prog pyval :=
  if NO_AUTH then mret VNone
  else
    cached ← get_cached_token;
    if is_not_None cached then mret cached
    else if negb (all_set [AUTH0_DOMAIN; AUTH0_CLIENT_ID; AUTH0_CLIENT_SECRET;
                           AUTH0_AUDIENCE]) then
      print "WARNING: Auth0 env vars not set and NO_AUTH is not true.";;
      print "  Set NO_AUTH=true for no-auth mode, or provide Auth0 credentials.";;
      print "  Required: AUTH0_DOMAIN, AUTH0_CLIENT_ID, AUTH0_CLIENT_SECRET, AUTH0_AUDIENCE";;
      sys_exit 1
    else
      let url := "https://" +:+ AUTH0_DOMAIN +:+ "/oauth/token" in
      let payload :=
        VDict [("grant_type", VStr "client_credentials");
               ("client_id", VStr AUTH0_CLIENT_ID);
               ("client_secret", VStr AUTH0_CLIENT_SECRET);
               ("audience", VStr AUTH0_AUDIENCE)] in
      try_except
        (let req :=
           {| rq_url := url; rq_data := payload;
              rq_headers := {["Content-Type" := "application/json"]};
              rq_method := "POST" |} in
         response ← urlopen IdentityEndpoint req;
         body ← decode response;
         result ← json_loads body;
         token ← dict_get result "access_token" VNone;
         if truthy token then
           expires ← dict_get result "expires_in" (VStr "unknown");
           print ("Auth0 token cached (expires in " +:+ py_str expires
                  +:+ "s) - shared by all users");;
           set_cached_token token;;
           mret token
         else
           print "ERROR: No access_token in Auth0 response";;
           sys_exit 1)
        (fun e =>
           match e with
           | HTTPError code _ body =>
               print ("ERROR: Auth0 token fetch failed: HTTP " +:+ pretty code);;
               raw ← http_error_read body;
               shown ← decode raw;
               print ("Response: " +:+ shown);;
               sys_exit 1
           | _ =>
               print ("ERROR: Auth0 token fetch failed: " +:+ exn_str e);;
               sys_exit 1
           end).

(** *** User classes *)

Definition CardFraudUser__get_headers : prog (gmap string string) :=
  let headers : gmap string string := {["Content-Type" := "application/json"]} in
  token ← _get_shared_token;
  if truthy token then
    mret (<["Authorization" := "Bearer " +:+ py_str token]> headers)
  else mret headers.

Definition CardFraudUser___init__ : prog user :=
  HttpUser___init__;;
  headers ← CardFraudUser__get_headers;
  mret {| headers := headers; client_verify := true |}.

Definition CardFraudUser_on_start (self : user) : user :=
  {| headers := headers self; client_verify := false |}.

Definition CardFraudUser__handle_response
    (response : http_response) (eval_type : string) : prog unit :=
  if status_code response =? 200 then
    try_except
      (data ← response_json response;
       mode ← dict_get data "engine_mode" (VStr "NORMAL");
       if in_strs mode ["FAIL_OPEN"; "DEGRADED"] then
         error_code ← dict_get data "engine_error_code" (VStr "UNKNOWN");
         response_failure (py_str mode +:+ ": " +:+ py_str error_code)
       else response_success)
      (fun e =>
         match e with
         | Error (JSONDecodeError _) => response_failure "Invalid JSON response"
         | _ => Throw e
         end)
  else if status_code response =? 401 then
    response_failure "Auth failed - check JWT_TOKEN or use NO_AUTH=true"
  else if status_code response =? 403 then
    response_failure "Forbidden - check scopes"
  else
    response_failure ("Status " +:+ pretty (status_code response) +:+ ": "
                      +:+ upto 100 (text response)).

Definition CardFraudUser_AUTH_evaluation (self : user) : prog unit :=
  body ← generate_AUTH_request;
  response ← client_post
    {| pc_path := "/v1/evaluate/auth"; pc_json := AuthPayload body;
       pc_headers := headers self; pc_catch_response := true;
       pc_name := Some "/v1/evaluate/auth" |};
  CardFraudUser__handle_response response "AUTH".

Definition CardFraudUser_MONITORING_evaluation (self : user) : prog unit :=
  body ← generate_MONITORING_request;
  response ← client_post
    {| pc_path := "/v1/evaluate/monitoring"; pc_json := MonitoringPayload body;
       pc_headers := headers self; pc_catch_response := true;
       pc_name := Some "/v1/evaluate/monitoring" |};
  CardFraudUser__handle_response response "MONITORING".

Definition CardFraudUser : user_class := {|
  class_name := "CardFraudUser";
  wait_time := between 10 50;
  init := CardFraudUser___init__;
  on_start := CardFraudUser_on_start;
  tasks := [(7%nat, CardFraudUser_AUTH_evaluation);
            (3%nat, CardFraudUser_MONITORING_evaluation)]
|}.

(** A subclass keeps what it does not override. *)
Definition HighVolumeUser : user_class := {|
  class_name := "HighVolumeUser";
  wait_time := between 1 5;
  init := init CardFraudUser;
  on_start := on_start CardFraudUser;
  tasks := tasks CardFraudUser
|}.

Definition VelocityTestUser_velocity_burst (self : user) : prog unit :=
  body ← generate_velocity_burst_request;
  response ← client_post
    {| pc_path := "/v1/evaluate/auth"; pc_json := AuthPayload body;
       pc_headers := headers self; pc_catch_response := true;
       pc_name := Some "/v1/evaluate/auth [velocity]" |};
  CardFraudUser__handle_response response "VELOCITY".

(** The tasks of a subclass are those of its base followed by its own. *)
Definition VelocityTestUser : user_class := {|
  class_name := "VelocityTestUser";
  wait_time := between 100 200;
  init := init CardFraudUser;
  on_start := on_start CardFraudUser;
  tasks := tasks CardFraudUser ++ [(1%nat, VelocityTestUser_velocity_burst)]
|}.

Definition SteadyStateUser__get_headers : prog (gmap string string) :=
  let headers : gmap string string := {["Content-Type" := "application/json"]} in
  token ← _get_shared_token;
  if truthy token then
    mret (<["Authorization" := "Bearer " +:+ py_str token]> headers)
  else mret headers.

Definition SteadyStateUser___init__ : prog user :=
  HttpUser___init__;;
  headers ← SteadyStateUser__get_headers;
  mret {| headers := headers; client_verify := true |}.

Definition SteadyStateUser_AUTH_only (self : user) : prog unit :=
  body ← generate_AUTH_request;
  _ ← client_post
    {| pc_path := "/v1/evaluate/auth"; pc_json := AuthPayload body;
       pc_headers := headers self; pc_catch_response := false;
       pc_name := None |};
  mret tt.

Definition SteadyStateUser : user_class := {|
  class_name := "SteadyStateUser";
  wait_time := constant (1 # 10);
  init := SteadyStateUser___init__;
  on_start := fun self => self;
  tasks := [(1%nat, SteadyStateUser_AUTH_only)]
|}.

(** The user classes the module defines, in source order. *)
Definition user_classes : list user_class :=
  [CardFraudUser; HighVolumeUser; VelocityTestUser; SteadyStateUser].

(** *** Event handlers *)

Definition on_test_start (environment_host : pyval) : prog unit :=
  print (repeat_char "=" 60);;
  print "Card Fraud Rule Engine Load Test";;
  print ("  Mode: " +:+ (if NO_AUTH then "NO-AUTH" else "JWT"));;
  print ("  Target: " +:+ py_str environment_host);;
  (if negb NO_AUTH then
     let domain_display :=
       if negb (String.eqb AUTH0_DOMAIN "")
       then upto 20 AUTH0_DOMAIN +:+ "..." else "Not configured" in
     print ("  Auth0: " +:+ domain_display)
   else mret tt);;
  print (repeat_char "=" 60);;
  (if negb NO_AUTH then _ ← _get_shared_token; mret tt else mret tt);;
  try_except
    (let headers : gmap string string := {["Content-Type" := "application/json"]} in
     token ← _get_shared_token;
     let headers :=
       if truthy token
       then <["Authorization" := "Bearer " +:+ py_str token]> headers
       else headers in
     let bulk_load_payload :=
       VDict [("rulesets",
               VList [VDict [("key", VStr "CARD_AUTH"); ("version", VInt 1);
                             ("country", VStr "global")];
                      VDict [("key", VStr "CARD_MONITORING"); ("version", VInt 1);
                             ("country", VStr "global")]])] in
     let url := TARGET_HOST +:+ "/v1/evaluate/rulesets/bulk-load" in
     let req := {| rq_url := url; rq_data := bulk_load_payload;
                   rq_headers := headers; rq_method := "POST" |} in
     response ← urlopen RulesetBulkLoad req;
     body ← decode response;
     result ← json_loads body;
     loaded ← dict_get result "loaded" (VInt 0);
     requested ← dict_get result "requested" (VInt 0);
     print ("  Rulesets loaded: " +:+ py_str loaded +:+ " / " +:+ py_str requested))
    (fun e =>
       print ("  Warning: Could not load rulesets: " +:+ exn_str e);;
       print "  Load test will proceed with existing rulesets (if any)");;
  print (repeat_char "=" 60).

Definition on_test_stop : prog unit :=
  print (repeat_char "=" 60);;
  print "Load Test Complete";;
  print (repeat_char "=" 60).

(** [response_time] is a float in the script and an exact rational here;
    [f"{response_time:.0f}"] rounds it to an integer, ties to even. *)
Definition on_request (name : string) (response_time : Q) : prog unit :=
  if Qlt_le_dec 50 response_time then
    print ("SLOW: " +:+ name +:+ " " +:+ pretty (round_half_even response_time) +:+ "ms")
  else mret tt.


(** *** Named parts of the requests and of the output *)

(** The request [_get_shared_token] sends to the identity endpoint. *)
Definition token_request : http_request :=
  {| rq_url := "https://" +:+ AUTH0_DOMAIN +:+ "/oauth/token";
     rq_data :=
       VDict [("grant_type", VStr "client_credentials");
              ("client_id", VStr AUTH0_CLIENT_ID);
              ("client_secret", VStr AUTH0_CLIENT_SECRET);
              ("audience", VStr AUTH0_AUDIENCE)];
     rq_headers := {["Content-Type" := "application/json"]};
     rq_method := "POST" |}.

(** The answer is a JSON object with a truthy [access_token]. *)
Definition carries_token (answer : exn + py_bytes) (tok : pyval) : Prop :=
  exists body items,
    answer = inr (inr {| chars := body; loads := inr (VDict items) |}) /\
    assoc "access_token" items = Some tok /\ truthy tok = true.

(** The answer is an [HTTPError] whose body is not valid UTF-8. *)
Definition undecodable_error (answer : exn + py_bytes) : Prop :=
  exists code reason msg, answer = inl (HTTPError code reason (Bytes (inl msg))).

(** The answer is an [HTTPError] whose body cannot be read. *)
Definition unreadable_error (answer : exn + py_bytes) : Prop :=
  exists code reason e, answer = inl (HTTPError code reason (Unreadable e)).

Definition is_print (e : event) : bool :=
  match e with EPrint _ => true | _ => false end.

(** The request the start hook sends to the target when the shared token
    is [tok]. *)
Definition bulk_load_request (tok : pyval) : http_request :=
  {| rq_url := TARGET_HOST +:+ "/v1/evaluate/rulesets/bulk-load";
     rq_data :=
       VDict [("rulesets",
               VList [VDict [("key", VStr "CARD_AUTH"); ("version", VInt 1);
                             ("country", VStr "global")];
                      VDict [("key", VStr "CARD_MONITORING"); ("version", VInt 1);
                             ("country", VStr "global")]])];
     rq_headers :=
       if truthy tok
       then <["Authorization" := "Bearer " +:+ py_str tok]>
              {["Content-Type" := "application/json"]}
       else {["Content-Type" := "application/json"]};
     rq_method := "POST" |}.

(** The lines the start hook prints before it resolves the credential. *)
Definition start_banner (host : pyval) : list event :=
  [EPrint (repeat_char "=" 60);
   EPrint "Card Fraud Rule Engine Load Test";
   EPrint ("  Mode: " +:+ (if NO_AUTH then "NO-AUTH" else "JWT"));
   EPrint ("  Target: " +:+ py_str host)] ++
  (if NO_AUTH then []
   else [EPrint ("  Auth0: " +:+
                 (if negb (String.eqb AUTH0_DOMAIN "")
                  then upto 20 AUTH0_DOMAIN +:+ "..." else "Not configured"))]) ++
  [EPrint (repeat_char "=" 60)].

(** The answer to the bulk load is a JSON object. *)
Definition is_json_object (answer : exn + py_bytes) : Prop :=
  exists body items, answer = inr (inr {| chars := body; loads := inr (VDict items) |}).

(** The two lines printed when the bulk load fails with message [msg]. *)
Definition preload_warning (msg : string) : list event :=
  [EPrint ("  Warning: Could not load rulesets: " +:+ msg);
   EPrint "  Load test will proceed with existing rulesets (if any)"].

(** *** Sample data for the examples *)

Definition fresh : globals := {| _cached_token := VNone; rng_cursor := 0 |}.

Definition sample_repr (v : pyval) : string := "<" +:+ type_name v +:+ ">".

Definition jwt_environ : gmap string string :=
  <["AUTH0_DOMAIN" := "tenant.example.com"]>
  (<["AUTH0_CLIENT_ID" := "client-id"]>
  (<["AUTH0_CLIENT_SECRET" := "client-secret"]>
  (<["AUTH0_AUDIENCE" := "https://fraud.example.com"]> ∅))).

Definition no_auth_environ : gmap string string := {["NO_AUTH" := "true"]}.

Definition json_bytes (s : string) (v : pyval) : py_bytes :=
  inr {| chars := s; loads := inr v |}.

(** [s] between double quotes, as in a JSON text. *)
Definition quoted (s : string) : string :=
  let dq := String (ascii_of_nat 34) EmptyString in dq +:+ s +:+ dq.

Definition token_body : py_bytes :=
  json_bytes
    ("{" +:+ quoted "access_token" +:+ ": " +:+ quoted "tok123" +:+ ", "
     +:+ quoted "expires_in" +:+ ": 3600}")
    (VDict [("access_token", VStr "tok123"); ("expires_in", VInt 3600)]).

Definition normal_response : http_response :=
  {| status_code := 200;
     text := "{" +:+ quoted "engine_mode" +:+ ": " +:+ quoted "NORMAL" +:+ "}";
     json := inr (VDict [("engine_mode", VStr "NORMAL")]) |}.

(** The identity endpoint issues [tok123]; the target answers every
    evaluation normally and reports two loaded rulesets. *)
Definition good_world : world := {|
  urlopen_answer := fun s _ =>
    match s with
    | IdentityEndpoint => inr token_body
    | RulesetBulkLoad =>
        inr (json_bytes
               ("{" +:+ quoted "loaded" +:+ ": 2, " +:+ quoted "requested" +:+ ": 2}")
               (VDict [("loaded", VInt 2); ("requested", VInt 2)]))
    end;
  target_answer := fun _ => normal_response;
  entropy := fun n => (N.of_nat n * 7919 + 13)%N;
  http_user_init := None
|}.

(** The identity endpoint answers 500 with a body that is not UTF-8. *)
Definition broken_idp_world : world := {|
  urlopen_answer := fun s _ =>
    match s with
    | IdentityEndpoint =>
        inl (HTTPError 500 "Internal Server Error"
               (Bytes (inl "'utf-8' codec can't decode byte 0xff in position 0: invalid start byte")))
    | RulesetBulkLoad => inl (Error (OtherError "<urlopen error [Errno 111] Connection refused>"))
    end;
  target_answer := fun _ => normal_response;
  entropy := fun n => N.of_nat n;
  http_user_init := None
|}.

(** The identity endpoint issues [tok123] and says nothing of its
    lifetime. *)
Definition no_expiry_world : world := {|
  urlopen_answer := fun s _ =>
    match s with
    | IdentityEndpoint =>
        inr (json_bytes ("{" +:+ quoted "access_token" +:+ ": " +:+ quoted "tok123" +:+ "}")
               (VDict [("access_token", VStr "tok123")]))
    | RulesetBulkLoad => inl (Error (OtherError "timed out"))
    end;
  target_answer := fun _ => normal_response;
  entropy := fun n => N.of_nat n;
  http_user_init := None
|}.

(** The identity endpoint answers with an empty [access_token]. *)
Definition empty_token_world : world := {|
  urlopen_answer := fun s _ =>
    match s with
    | IdentityEndpoint =>
        inr (json_bytes ("{" +:+ quoted "access_token" +:+ ": " +:+ quoted "" +:+ "}")
               (VDict [("access_token", VStr "")]))
    | RulesetBulkLoad => inl (Error (OtherError "timed out"))
    end;
  target_answer := fun _ => normal_response;
  entropy := fun n => N.of_nat n;
  http_user_init := None
|}.

(** The Auth0 variables of [jwt_environ] with an empty audience. *)
Definition empty_audience_environ : gmap string string :=
  <["AUTH0_AUDIENCE" := ""]> jwt_environ.

(** A 200 whose body is the JSON list [[]]. *)
Definition list_response : http_response :=
  {| status_code := 200; text := "[]"; json := inr (VList []) |}.

(** A 200 whose body is the JSON text [null]. *)
Definition null_response : http_response :=
  {| status_code := 200; text := "null"; json := inr VNone |}.

(** A 200 whose body is one integer of 5000 digits: [json()] refuses to
    convert it. *)
Definition huge_number_response : http_response :=
  {| status_code := 200; text := repeat_char "7" 5000;
     json := inl (ValueError "Exceeds the limit (4300 digits) for integer string conversion: value has 5000 digits; use sys.set_int_max_str_digits() to increase the limit") |}.

(** The world of [good_world] in which every draw of the random stream
    is [40622921261960]. *)
Definition one_draw_world : world := {|
  urlopen_answer := urlopen_answer good_world;
  target_answer := fun _ => normal_response;
  entropy := fun _ => 40622921261960%N;
  http_user_init := None
|}.

(** A run in which no host is configured: the constructor of [HttpUser]
    raises. *)
Definition no_host_world : world := {|
  urlopen_answer := urlopen_answer empty_token_world;
  target_answer := fun _ => normal_response;
  entropy := fun n => N.of_nat n;
  http_user_init := Some (LocustError "You must specify the base host.")
|}.

(** A 200 that reports an engine mode the script does not know. *)
Definition shadow_response : http_response :=
  {| status_code := 200;
     text := "{" +:+ quoted "engine_mode" +:+ ": " +:+ quoted "SHADOW" +:+ "}";
     json := inr (VDict [("engine_mode", VStr "SHADOW")]) |}.

(** A 500 with a body of 150 characters. *)
Definition long_error_response : http_response :=
  {| status_code := 500; text := repeat_char "x" 150;
     json := inl (JSONDecodeError "Expecting value: line 1 column 1 (char 0)") |}.

(** A user built without a token. *)
Definition plain_user : user :=
  {| headers := {["Content-Type" := "application/json"]}; client_verify := true |}.

(** *** Vocabulary of the statements *)

(** The verdicts recorded on responses. *)
Definition is_mark (e : event) : bool :=
  match e with ESuccess | EFailure _ => true | _ => false end.


(** [p] only draws random numbers: in every world and state it returns a
    value that satisfies [P], with no observable event and the token cache
    untouched. *)
Definition draws {A} (p : prog A) (P : A -> Prop) : Prop :=
  forall w g, exists a g',
    run w p g = (Returned a, g', []) /\
    _cached_token g' = _cached_token g /\ P a.

Definition is_hex (c : ascii) : bool :=
  existsb (Ascii.eqb c)
    ["0"; "1"; "2"; "3"; "4"; "5"; "6"; "7"; "8"; "9";
     "a"; "b"; "c"; "d"; "e"; "f"]%char.

Definition hex_string (s : string) : bool :=
  forallb is_hex (list_ascii_of_string s).

(** [s] is [prefix] followed by the decimal digits of a number of
    [[lo, hi]]. *)
Definition numbered (prefix : string) (lo hi : Z) (s : string) : Prop :=
  exists n, lo <= n <= hi /\ s = prefix +:+ pretty n.

(** [s] is [txn-] followed by sixteen hexadecimal digits. *)
Definition is_transaction_id (s : string) : Prop :=
  exists h, s = "txn-" +:+ h /\ String.length h = 16%nat /\ hex_string h = true.

(** A shift record holds bits that were shifted out. *)
Definition inexact (mrs : shr_record) : bool := shr_r mrs || shr_s mrs.

(** [x] is zero or a positive float that lies between the integers [A] and
    [B]: its mantissa [m] at exponent [e <= 0] stands for [m / 2^(-e)]. *)
Definition SF_between (x : spec_float) (A B : Z) : Prop :=
  match x with
  | S754_zero _ => A <= 0 <= B
  | S754_finite s m e =>
      s = false /\ e <= 0 /\ A * 2 ^ (- e) <= Z.pos m <= B * 2 ^ (- e)
  | _ => False
  end.

Definition float_between (x : float) (A B : Z) : Prop :=
  SF_between (Prim2SF x) A B.

(** [a] is the float of a whole number of hundredths between [lo] and
    [hi], that is [float(cents) / 100.0], the float nearest to [cents / 100];
    and as a float it is not below [float(lo)] and not above [float(hi)]. *)
Definition amount_between (lo hi : Z) (a : float) : Prop :=
  (exists cents,
     lo * 100 <= cents <= hi * 100 /\ a = (py_float cents / 100)%float) /\
  (py_float lo <=? a)%float = true /\
  (a <=? py_float hi)%float = true.

(** [s] is [192.168.a.b] with both [a] and [b] in [[0, 255]]. *)
Definition is_ip_address (s : string) : Prop :=
  exists a b, 0 <= a <= 255 /\ 0 <= b <= 255 /\
    s = "192.168." +:+ pretty a +:+ "." +:+ pretty b.

(** Every field of an AUTH payload lies in its pool or range; the card
    hashes and the amount bounds are those of the generator at hand. *)
Definition auth_fields_in_range (hashes : list string) (lo hi : Z)
    (p : auth_request) : Prop :=
  is_transaction_id (transaction_id p) /\
  In (card_hash p) hashes /\
  amount_between lo hi (amount p) /\
  In (currency p) CURRENCIES /\
  In (country_code p) COUNTRIES /\
  numbered "merch_" 1000 9999 (merchant_id p) /\
  numbered "Test Merchant " 1 100 (merchant_name p) /\
  In (merchant_category p) MERCHANT_CATEGORIES /\
  In (merchant_category_code p) MERCHANT_CATEGORIES /\
  In (card_present p) [true; false] /\
  In (transaction_type p) TRANSACTION_TYPES /\
  In (entry_mode p) ENTRY_MODES /\
  is_ip_address (ip_address p) /\
  numbered "device_" 1000 9999 (device_id p) /\
  In (card_network p) ["VISA"; "MASTERCARD"; "AMEX"] /\
  In (card_bin p) (visa_bins ++ mc_bins ++ amex_bins).

Definition monitoring_fields_in_range (p : monitoring_request) : Prop :=
  is_transaction_id (m_transaction_id p) /\
  In (m_card_hash p) CARD_HASHES /\
  amount_between 10 500 (m_amount p) /\
  In (m_currency p) CURRENCIES /\
  In (m_country_code p) COUNTRIES /\
  numbered "merch_" 1000 9999 (m_merchant_id p) /\
  In (m_merchant_category_code p) MERCHANT_CATEGORIES /\
  In (m_decision p) ["APPROVE"; "DECLINE"].

(** The network label that goes with a card bin. *)
Definition network_matches (p : auth_request) : Prop :=
  card_network p =
    if startswith (card_bin p) "4" then "VISA"
    else if startswith (card_bin p) "5" then "MASTERCARD" else "AMEX".

(** ** Running composed programs *)

(** Every run that occurs in the goal, by its outcome. *)
Ltac by_outcome w :=
  repeat (match goal with
          | |- context [run w ?q ?x] => destruct (run w q x) as [[[?|?|?] ?] ?]
          end; simpl);
  reflexivity.

Lemma run_bind {A B} (w : world) (p : prog A) (f : A -> prog B) (g : globals) :
  run w (bind p f) g =
  match run w p g with
  | (Returned a, g1, t1) => let '(o, g2, t2) := run w (f a) g1 in (o, g2, t1 ++ t2)
  | (Exited c, g1, t1) => (Exited c, g1, t1)
  | (Raised e, g1, t1) => (Raised e, g1, t1)
  end.
Proof.
  revert g.
  induction p as [a|c|e|l k IH|k IH|v k IH|s rq k IH|k IH|k IH|c k IH|k IH|m k IH];
    intros g; cbn [bind run]; rewrite ?IH; cbn [emit app]; by_outcome w.
Qed.

Lemma run_try_except {A} (w : world) (p : prog A) (h : exn -> prog A) (g : globals) :
  run w (try_except p h) g =
  match run w p g with
  | (Raised e, g1, t1) => let '(o, g2, t2) := run w (h e) g1 in (o, g2, t1 ++ t2)
  | r => r
  end.
Proof.
  revert g.
  induction p as [a|c|e|l k IH|k IH|v k IH|s rq k IH|k IH|k IH|c k IH|k IH|m k IH];
    intros g; cbn [try_except run]; rewrite ?IH; cbn [emit app]; by_outcome w.
Qed.

(** ** Random draws *)

Lemma draws_ret {A} (a : A) (P : A -> Prop) : P a -> draws (mret a) P.
Proof. intros Ha w g. exists a, g. auto. Qed.

Lemma draws_bind {A B} (p : prog A) (f : A -> prog B) (P : A -> Prop)
    (R : B -> Prop) :
  draws p P -> (forall a, P a -> draws (f a) R) -> draws (p ≫= f) R.
Proof.
  intros Hp Hf w g. unfold mbind, prog_bind. rewrite run_bind.
  destruct (Hp w g) as (a & g1 & -> & Hc1 & Ha).
  destruct (Hf a Ha w g1) as (b & g2 & -> & Hc2 & Hb).
  exists b, g2. simpl. repeat split; [congruence | assumption].
Qed.

Lemma draws_weaken {A} (p : prog A) (P R : A -> Prop) :
  draws p P -> (forall a, P a -> R a) -> draws p R.
Proof.
  intros Hp HPR w g. destruct (Hp w g) as (a & g' & ? & ? & ?).
  exists a, g'. auto.
Qed.

Lemma draws_randbelow (n : N) :
  (0 < n)%N -> draws (randbelow n) (fun i => (i < n)%N).
Proof.
  intros Hn w g. eexists _, _. simpl. repeat split.
  apply N.mod_lt. lia.
Qed.

Lemma draws_choice {A} (pool : list A) :
  pool <> [] -> draws (random_choice pool) (fun x => In x pool).
Proof.
  intros Hne w g. destruct pool as [|x0 pool']; [congruence|].
  unfold random_choice. set (pool := x0 :: pool').
  assert (Hlen : (0 < N.of_nat (length pool))%N) by (simpl; lia).
  destruct (draws_randbelow _ Hlen w g) as (i & g' & Hrun & Hc & Hi).
  assert (Hlt : (N.to_nat i < length pool)%nat) by lia.
  destruct (lookup_lt_is_Some_2 pool _ Hlt) as [x Hx].
  exists x, g'. unfold mbind, prog_bind. rewrite run_bind, Hrun, Hx.
  split; [reflexivity | split; [assumption|]].
  apply list_elem_of_In. eapply list_elem_of_lookup_2; eassumption.
Qed.

Lemma draws_randint (a b : Z) :
  a <= b -> draws (random_randint a b) (fun n => a <= n <= b).
Proof.
  intros Hab. unfold random_randint. eapply draws_bind.
  - apply draws_randbelow. lia.
  - intros i Hi. cbv beta in Hi. apply draws_ret. lia.
Qed.

(** ** Strings and rounding *)

Lemma length_append (s1 s2 : string) :
  String.length (s1 +:+ s2) = (String.length s1 + String.length s2)%nat.
Proof. induction s1 as [|c s1 IH]; simpl; [reflexivity | now rewrite IH]. Qed.

Lemma hex_string_append (s1 s2 : string) :
  hex_string s1 = true -> hex_string s2 = true -> hex_string (s1 +:+ s2) = true.
Proof.
  unfold hex_string. induction s1 as [|c s1 IH]; simpl; [auto|].
  intros [Hc H1]%andb_prop H2. rewrite Hc. simpl. auto.
Qed.

Lemma hex_digit_is_hex (n : N) : is_hex (hex_digit n) = true.
Proof.
  unfold hex_digit. generalize (N.to_nat n). intros k.
  do 16 (destruct k as [|k]; [reflexivity|]). destruct k; reflexivity.
Qed.

Lemma hex_fixed_length (width : nat) (n : N) :
  String.length (hex_fixed width n) = width.
Proof.
  revert n. induction width as [|wd IH]; intros n; simpl; [reflexivity|].
  rewrite length_append, IH. simpl. lia.
Qed.

Lemma hex_fixed_hex (width : nat) (n : N) : hex_string (hex_fixed width n) = true.
Proof.
  revert n. induction width as [|wd IH]; intros n; simpl; [reflexivity|].
  apply hex_string_append; [apply IH|].
  unfold hex_string. simpl. now rewrite hex_digit_is_hex.
Qed.

Lemma upto_length (n : nat) (s : string) :
  (n <= String.length s)%nat -> String.length (upto n s) = n.
Proof.
  unfold upto. revert s. induction n as [|n IH]; intros [|c s]; simpl; try lia.
  intros H. rewrite IH; lia.
Qed.

Lemma upto_hex (n : nat) (s : string) :
  hex_string s = true -> hex_string (upto n s) = true.
Proof.
  unfold upto, hex_string. revert s.
  induction n as [|n IH]; intros [|c s]; simpl; try reflexivity.
  intros [Hc Hs]%andb_prop. rewrite Hc. simpl. auto.
Qed.

Lemma round_half_even_bounds (x : Q) (lo hi : Z) :
  (inject_Z lo <= x)%Q -> (x <= inject_Z hi)%Q ->
  lo <= round_half_even x <= hi.
Proof.
  destruct x as [n d]. unfold Qle, round_half_even. simpl.
  rewrite !Z.mul_1_r. intros Hlo Hhi.
  pose proof (Z.div_mod n (Z.pos d) ltac:(lia)) as Hdm.
  pose proof (Z.mod_pos_bound n (Z.pos d) ltac:(lia)) as Hr.
  set (q := n / Z.pos d) in *. set (r := n mod Z.pos d) in *.
  assert (lo <= q) by nia.
  assert (q <= hi) by nia.
  assert (0 < r -> q + 1 <= hi) by nia.
  destruct (Z.compare_spec (2 * r) (Z.pos d)); [destruct (Z.even q)|..]; lia.
Qed.

(** ** Binary64 arithmetic

    The primitive operations are specified by [SpecFloat]: the exact
    result, shifted to the exponent of the format and rounded to nearest,
    ties to even.  What is needed of them here: a result that lies between
    two integers before it is rounded lies between them after. *)

Lemma digits2_pos_lower (p : positive) :
  2 ^ (Z.pos (digits2_pos p) - 1) <= Z.pos p.
Proof.
  induction p as [p IH|p IH|]; cbn [digits2_pos]; [| |reflexivity].
  all: rewrite Pos2Z.inj_succ, <- Z.add_1_r, Z.add_simpl_r.
  all: replace (Z.pos (digits2_pos p)) with (Z.succ (Z.pos (digits2_pos p) - 1)) by lia.
  all: rewrite Z.pow_succ_r by lia; lia.
Qed.

Lemma digits2_pos_upper (p : positive) :
  Z.pos p < 2 ^ Z.pos (digits2_pos p).
Proof.
  induction p as [p IH|p IH|]; cbn [digits2_pos]; [| |reflexivity].
  all: rewrite Pos2Z.inj_succ, Z.pow_succ_r by lia; lia.
Qed.

Lemma digits_below (p : positive) (n : Z) :
  Z.pos p < 2 ^ n -> Z.pos (digits2_pos p) <= n.
Proof.
  intros Hp. pose proof (digits2_pos_lower p) as Hlow.
  destruct (Z.le_gt_cases (Z.pos (digits2_pos p)) n) as [|Hgt]; [assumption|].
  exfalso.
  assert (0 <= n).
  { destruct (Z.lt_ge_cases n 0) as [Hn|]; [|assumption].
    rewrite Z.pow_neg_r in Hp by assumption. lia. }
  assert (2 ^ n <= 2 ^ (Z.pos (digits2_pos p) - 1)) by (apply Z.pow_le_mono_r; lia).
  lia.
Qed.

Lemma shr_1_spec (mrs : shr_record) :
  0 <= shr_m mrs ->
  0 <= shr_m (shr_1 mrs) /\
  shr_m mrs = 2 * shr_m (shr_1 mrs) + (if shr_r (shr_1 mrs) then 1 else 0) /\
  inexact (shr_1 mrs) = shr_r (shr_1 mrs) || inexact mrs.
Proof.
  destruct mrs as [m r s]. unfold inexact. cbn [shr_m shr_r shr_s].
  intros Hm. destruct m as [|[p|p|]|p]; cbn; try lia; repeat split; lia.
Qed.

Lemma iter_shr_1 (n : nat) (mrs : shr_record) :
  0 <= shr_m mrs ->
  let mrs' := Nat.iter n shr_1 mrs in
  0 <= shr_m mrs' /\
  2 ^ Z.of_nat n * shr_m mrs' <= shr_m mrs < 2 ^ Z.of_nat n * (shr_m mrs' + 1) /\
  (inexact mrs' = true ->
   inexact mrs = true \/ 2 ^ Z.of_nat n * shr_m mrs' < shr_m mrs).
Proof.
  intros Hm. induction n as [|n IH].
  - cbn. repeat split; try lia. auto.
  - cbv zeta in *.
    change (Nat.iter (S n) shr_1 mrs) with (shr_1 (Nat.iter n shr_1 mrs)).
    destruct IH as (H0 & Hb & Hi).
    destruct (shr_1_spec _ H0) as (H0' & Hstep & Hin).
    set (x := Nat.iter n shr_1 mrs) in *.
    rewrite Nat2Z.inj_succ, Z.pow_succ_r by lia.
    assert (0 < 2 ^ Z.of_nat n) by (apply Z.pow_pos_nonneg; lia).
    set (P := 2 ^ Z.of_nat n) in *.
    split; [assumption|].
    generalize dependent (shr_m (shr_1 x)). intros m'.
    generalize dependent (shr_m x). intros m1.
    generalize dependent (shr_m mrs). intros m0.
    intros Hm H0 Hb Hi H0' Hstep. subst m1.
    split.
    + destruct (shr_r (shr_1 x)); rewrite ?Z.mul_add_distr_l in *; lia.
    + rewrite Hin. intros [Hr | Hx]%orb_true_iff.
      * rewrite Hr in *. right. rewrite ?Z.mul_add_distr_l in *. lia.
      * destruct (Hi Hx) as [|]; [auto|]. right.
        destruct (shr_r (shr_1 x)); rewrite ?Z.mul_add_distr_l in *; lia.
Qed.

Lemma iter_pos_nat {A} (f : A -> A) (p : positive) (x : A) :
  SpecFloat.iter_pos f p x = Nat.iter (Pos.to_nat p) f x.
Proof.
  revert x. induction p as [p IH|p IH|]; intros x; cbn [SpecFloat.iter_pos].
  - rewrite !IH, Pos2Nat.inj_xI.
    replace (S (2 * Pos.to_nat p)) with (Pos.to_nat p + (Pos.to_nat p + 1))%nat by lia.
    now rewrite !Nat.iter_add.
  - rewrite !IH, Pos2Nat.inj_xO.
    replace (2 * Pos.to_nat p)%nat with (Pos.to_nat p + Pos.to_nat p)%nat by lia.
    now rewrite Nat.iter_add.
  - reflexivity.
Qed.

Lemma loc_inexact (mrs : shr_record) :
  loc_of_shr_record mrs <> loc_Exact -> inexact mrs = true.
Proof. destruct mrs as [m [|] [|]]; cbn; congruence. Qed.

Lemma record_inexact (m : Z) (l : location) :
  inexact (shr_record_of_loc m l) = true -> l <> loc_Exact.
Proof. destruct l as [|[| |]]; cbn; congruence. Qed.

Lemma shr_record_m (m : Z) (l : location) : shr_m (shr_record_of_loc m l) = m.
Proof. destruct l as [|[| |]]; reflexivity. Qed.

(** What [shr_fexp] does to a mantissa that is not negative: it drops
    [k] low bits, and reports a location other than exact only when the
    value was not exact before or a bit that was set got lost. *)
Lemma shr_fexp_spec (m e : Z) (l : location) :
  0 <= m ->
  exists k,
    0 <= k /\
    k = Z.max (fexp prec emax (Zdigits2 m + e) - e) 0 /\
    snd (shr_fexp prec emax m e l) = e + k /\
    0 <= shr_m (fst (shr_fexp prec emax m e l)) /\
    2 ^ k * shr_m (fst (shr_fexp prec emax m e l)) <= m
      < 2 ^ k * (shr_m (fst (shr_fexp prec emax m e l)) + 1) /\
    (loc_of_shr_record (fst (shr_fexp prec emax m e l)) <> loc_Exact ->
     l <> loc_Exact \/ 2 ^ k * shr_m (fst (shr_fexp prec emax m e l)) < m).
Proof.
  intros Hm. unfold shr_fexp, shr.
  destruct (fexp prec emax (Zdigits2 m + e) - e) as [|p|p] eqn:Hn.
  1,3: exists 0; cbn [fst snd]; rewrite shr_record_m, Z.add_0_r;
    repeat split; try lia;
    intros H; left; exact (record_inexact _ _ (loc_inexact _ H)).
  exists (Z.pos p). cbn [fst snd]. rewrite iter_pos_nat.
  pose proof (iter_shr_1 (Pos.to_nat p) (shr_record_of_loc m l)) as Hit.
  rewrite shr_record_m, positive_nat_Z in Hit.
  destruct (Hit Hm) as (H0 & Hb & Hi).
  repeat split; try lia.
  intros H. destruct (Hi (loc_inexact _ H)) as [H' | H']; [left; exact (record_inexact _ _ H') | auto].
Qed.

Lemma round_nearest_even_spec (m : Z) (l : location) :
  round_nearest_even m l = m \/
  (round_nearest_even m l = m + 1 /\ l <> loc_Exact).
Proof.
  destruct l as [|[| |]]; cbn; try (left; reflexivity).
  - destruct (Z.even m); [left; reflexivity|].
    right. split; [reflexivity | discriminate].
  - right. split; [reflexivity | discriminate].
Qed.

Lemma fexp_nonpos (m e B : Z) :
  0 <= m -> e <= 0 -> B < 2 ^ 53 -> m <= B * 2 ^ (- e) ->
  fexp prec emax (Zdigits2 m + e) <= 0.
Proof.
  intros Hm He HB Hmb. unfold fexp, SpecFloat.emin, prec, emax.
  apply Z.max_lub; [|lia].
  destruct m as [|p|p]; cbn [Zdigits2]; [lia| |lia].
  assert (Hpos : 0 < 2 ^ (- e)) by (apply Z.pow_pos_nonneg; lia).
  assert (Hlt : Z.pos p < 2 ^ (53 - e)).
  { replace (53 - e) with (53 + - e) by lia.
    rewrite Z.pow_add_r by lia. nia. }
  pose proof (digits_below p (53 - e) Hlt). lia.
Qed.

(** Rounding keeps a value between two integers it lies between: the
    mantissa [mx] at exponent [ex], with whatever was lost before as [lx],
    is rounded to a float between [A] and [B]. *)
Lemma binary_round_aux_bounds (sx : bool) (mx ex : Z) (lx : location) (A B : Z) :
  0 <= mx -> ex <= 0 -> 0 <= A -> B < 2 ^ 53 ->
  A * 2 ^ (- ex) <= mx ->
  mx <= B * 2 ^ (- ex) ->
  (lx <> loc_Exact -> mx < B * 2 ^ (- ex)) ->
  match binary_round_aux prec emax sx mx ex lx with
  | S754_zero s => s = sx /\ A = 0
  | S754_finite s m e =>
      s = sx /\ e <= 0 /\ A * 2 ^ (- e) <= Z.pos m <= B * 2 ^ (- e)
  | _ => False
  end.
Proof.
  intros Hmx Hex HA HB Hlo Hhi Hstrict. unfold binary_round_aux.
  destruct (shr_fexp_spec mx ex lx Hmx) as (k1 & Hk1 & Hk1eq & He1 & Hm1 & Hb1 & Hi1).
  destruct (shr_fexp prec emax mx ex lx) as [mrs1 e1]. cbn [fst snd] in *.
  pose proof (fexp_nonpos mx ex B Hmx Hex HB Hhi) as Hf1.
  assert (He1' : e1 <= 0) by lia.
  assert (HP1 : 0 < 2 ^ k1) by (apply Z.pow_pos_nonneg; lia).
  assert (Hsplit1 : 2 ^ (- ex) = 2 ^ k1 * 2 ^ (- e1)).
  { rewrite <- Z.pow_add_r by lia. f_equal. lia. }
  assert (HE1 : 0 < 2 ^ (- e1)) by (apply Z.pow_pos_nonneg; lia).
  set (m1 := shr_m mrs1) in *.
  set (m1r := round_nearest_even m1 (loc_of_shr_record mrs1)).
  assert (Hlo1 : A * 2 ^ (- e1) <= m1).
  { rewrite Hsplit1 in Hlo.
    assert (2 ^ k1 * (A * 2 ^ (- e1)) < 2 ^ k1 * (m1 + 1)) by lia.
    apply Z.mul_lt_mono_pos_l in H; lia. }
  assert (Hr : m1 <= m1r /\ m1r <= B * 2 ^ (- e1)).
  { rewrite Hsplit1 in Hhi, Hstrict.
    destruct (round_nearest_even_spec m1 (loc_of_shr_record mrs1)) as [Hr | [Hr Hl1]];
      fold m1r in Hr; rewrite Hr.
    - split; [lia|].
      assert (2 ^ k1 * m1 <= 2 ^ k1 * (B * 2 ^ (- e1))) by lia.
      apply Z.mul_le_mono_pos_l in H; lia.
    - split; [lia|].
      assert (2 ^ k1 * m1 < 2 ^ k1 * (B * 2 ^ (- e1))).
      { destruct (Hi1 Hl1) as [Hx | Hx]; [specialize (Hstrict Hx)|]; lia. }
      apply Z.mul_lt_mono_pos_l in H; lia. }
  destruct Hr as [Hr1 Hr2].
  assert (Hm1r : 0 <= m1r) by lia.
  destruct (shr_fexp_spec m1r e1 loc_Exact Hm1r)
    as (k2 & Hk2 & Hk2eq & He2 & Hm2 & Hb2 & _).
  pose proof (fexp_nonpos m1r e1 B Hm1r He1' HB Hr2) as Hf2.
  destruct (shr_fexp prec emax m1r e1 loc_Exact) as [mrs2 e2]. cbn [fst snd] in *.
  assert (He2' : e2 <= 0) by lia.
  assert (HP2 : 0 < 2 ^ k2) by (apply Z.pow_pos_nonneg; lia).
  assert (Hsplit2 : 2 ^ (- e1) = 2 ^ k2 * 2 ^ (- e2)).
  { rewrite <- Z.pow_add_r by lia. f_equal. lia. }
  assert (HE2 : 0 < 2 ^ (- e2)) by (apply Z.pow_pos_nonneg; lia).
  rewrite Hsplit2 in Hlo1, Hr2.
  assert (Hlo2 : A * 2 ^ (- e2) <= shr_m mrs2).
  { assert (2 ^ k2 * (A * 2 ^ (- e2)) < 2 ^ k2 * (shr_m mrs2 + 1)) by lia.
    apply Z.mul_lt_mono_pos_l in H; lia. }
  assert (Hhi2 : shr_m mrs2 <= B * 2 ^ (- e2)).
  { assert (2 ^ k2 * shr_m mrs2 <= 2 ^ k2 * (B * 2 ^ (- e2))) by lia.
    apply Z.mul_le_mono_pos_l in H; lia. }
  destruct (shr_m mrs2) as [|m|m]; [split; [reflexivity | nia] | | lia].
  replace (e2 <=? emax - prec) with true
    by (symmetry; apply Z.leb_le; unfold emax, prec; lia).
  auto.
Qed.

Lemma SF_between_rounded (mx ex : Z) (lx : location) (A B : Z) :
  0 <= mx -> ex <= 0 -> 0 <= A -> B < 2 ^ 53 ->
  A * 2 ^ (- ex) <= mx ->
  mx <= B * 2 ^ (- ex) ->
  (lx <> loc_Exact -> mx < B * 2 ^ (- ex)) ->
  SF_between (binary_round_aux prec emax false mx ex lx) A B.
Proof.
  intros Hmx Hex HA HB Hlo Hhi Hstrict.
  pose proof (binary_round_aux_bounds false mx ex lx A B Hmx Hex HA HB Hlo Hhi Hstrict) as H.
  assert (0 < 2 ^ (- ex)) by (apply Z.pow_pos_nonneg; lia).
  destruct (binary_round_aux prec emax false mx ex lx); cbn; try assumption.
  destruct H as [_ ->]. nia.
Qed.

Lemma pos_iter_xO (m d : positive) :
  Z.pos (Pos.iter xO m d) = Z.pos m * 2 ^ Z.pos d.
Proof.
  induction d as [|d IH] using Pos.peano_ind.
  - cbn [Pos.iter]. lia.
  - rewrite Pos.iter_succ, Pos2Z.inj_succ, Z.pow_succ_r by lia.
    rewrite Pos2Z.inj_xO, IH. lia.
Qed.

Lemma shl_align_spec (mx : positive) (ex ex' : Z) :
  snd (shl_align mx ex ex') <= ex /\
  Z.pos (fst (shl_align mx ex ex')) =
    Z.pos mx * 2 ^ (ex - snd (shl_align mx ex ex')).
Proof.
  unfold shl_align. destruct (ex' - ex) as [|d|d] eqn:Hd; cbn [fst snd].
  1,2: rewrite Z.sub_diag; cbn; lia.
  rewrite pos_iter_xO. split; [lia|]. f_equal. f_equal. lia.
Qed.

Lemma SF_between_round (mx : positive) (ex A B : Z) :
  ex <= 0 -> 0 <= A -> B < 2 ^ 53 ->
  A * 2 ^ (- ex) <= Z.pos mx <= B * 2 ^ (- ex) ->
  SF_between (binary_round prec emax false mx ex) A B.
Proof.
  intros Hex HA HB [Hlo Hhi]. unfold binary_round.
  destruct (shl_align_spec mx ex (fexp prec emax (Z.pos (digits2_pos mx) + ex)))
    as [He Hm].
  destruct (shl_align mx ex _) as [mz ez]. cbn [fst snd] in *.
  assert (Hsplit : 2 ^ (- ez) = 2 ^ (- ex) * 2 ^ (ex - ez)).
  { rewrite <- Z.pow_add_r by lia. f_equal. lia. }
  assert (0 < 2 ^ (ex - ez)) by (apply Z.pow_pos_nonneg; lia).
  apply SF_between_rounded; try lia.
  - rewrite Hsplit, Hm. nia.
  - rewrite Hsplit, Hm. nia.
  - intros []. reflexivity.
Qed.

Lemma SF_between_weaken (x : spec_float) (A B A' B' : Z) :
  SF_between x A B -> A' <= A -> B <= B' -> SF_between x A' B'.
Proof.
  destruct x as [s|s| |s m e]; cbn; try tauto; [lia|].
  intros (Hs & He & Hlo & Hhi) HA HB.
  assert (0 < 2 ^ (- e)) by (apply Z.pow_pos_nonneg; lia).
  repeat split; try assumption; nia.
Qed.

(** The product of two such floats. *)
Lemma SFmul_between (x y : spec_float) (Ax Bx Ay By : Z) :
  SF_between x Ax Bx -> SF_between y Ay By ->
  0 <= Ax -> 0 <= Ay -> Bx * By < 2 ^ 53 ->
  SF_between (SFmul prec emax x y) (Ax * Ay) (Bx * By).
Proof.
  intros Hx Hy HAx HAy HB.
  destruct x as [sx|sx| |sx mx ex], y as [sy|sy| |sy my ey]; cbn in Hx, Hy;
    try contradiction; cbn [SFmul SF_between].
  - nia.
  - destruct Hy as (_ & He & Hlo & Hhi).
    assert (0 < 2 ^ (- ey)) by (apply Z.pow_pos_nonneg; lia). nia.
  - destruct Hx as (_ & He & Hlo & Hhi).
    assert (0 < 2 ^ (- ex)) by (apply Z.pow_pos_nonneg; lia). nia.
  - destruct Hx as (-> & Hex & Hlox & Hhix), Hy as (-> & Hey & Hloy & Hhiy).
    cbn [xorb].
    assert (HEx : 0 < 2 ^ (- ex)) by (apply Z.pow_pos_nonneg; lia).
    assert (HEy : 0 < 2 ^ (- ey)) by (apply Z.pow_pos_nonneg; lia).
    assert (Hsplit : 2 ^ (- (ex + ey)) = 2 ^ (- ex) * 2 ^ (- ey)).
    { rewrite <- Z.pow_add_r by lia. f_equal. lia. }
    apply SF_between_rounded; try lia.
    + rewrite Hsplit, Pos2Z.inj_mul. nia.
    + rewrite Hsplit, Pos2Z.inj_mul. nia.
    + intros []. reflexivity.
Qed.

(** The sum of two such floats. *)
Lemma SFadd_between (x y : spec_float) (Ax Bx Ay By : Z) :
  SF_between x Ax Bx -> SF_between y Ay By ->
  0 <= Ax -> 0 <= Ay -> Bx + By < 2 ^ 53 ->
  SF_between (SFadd prec emax x y) (Ax + Ay) (Bx + By).
Proof.
  intros Hx Hy HAx HAy HB.
  destruct x as [sx|sx| |sx mx ex], y as [sy|sy| |sy my ey]; cbn in Hx, Hy;
    try contradiction; cbn [SFadd].
  - destruct sx, sy; cbn; lia.
  - apply (SF_between_weaken _ Ay By); [exact Hy | lia | lia].
  - apply (SF_between_weaken _ Ax Bx); [exact Hx | lia | lia].
  - destruct Hx as (-> & Hex & Hlox & Hhix), Hy as (-> & Hey & Hloy & Hhiy).
    cbn [cond_Zopp].
    destruct (shl_align_spec mx ex (Z.min ex ey)) as [Hex' Hmx].
    destruct (shl_align_spec my ey (Z.min ex ey)) as [Hey' Hmy].
    assert (Hsx : snd (shl_align mx ex (Z.min ex ey)) = Z.min ex ey \/
                  (snd (shl_align mx ex (Z.min ex ey)) = ex /\ ex = Z.min ex ey)).
    { unfold shl_align. destruct (Z.min ex ey - ex) eqn:?; cbn [snd]; lia. }
    assert (Hsy : snd (shl_align my ey (Z.min ex ey)) = Z.min ex ey \/
                  (snd (shl_align my ey (Z.min ex ey)) = ey /\ ey = Z.min ex ey)).
    { unfold shl_align. destruct (Z.min ex ey - ey) eqn:?; cbn [snd]; lia. }
    set (ez := Z.min ex ey) in *.
    assert (Hax : snd (shl_align mx ex ez) = ez) by lia.
    assert (Hay : snd (shl_align my ey ez) = ez) by lia.
    rewrite Hax in Hmx. rewrite Hay in Hmy.
    cbn [Z.add binary_normalize].
    assert (HEx : 0 < 2 ^ (ex - ez)) by (apply Z.pow_pos_nonneg; lia).
    assert (HEy : 0 < 2 ^ (ey - ez)) by (apply Z.pow_pos_nonneg; lia).
    assert (Hsplitx : 2 ^ (- ez) = 2 ^ (- ex) * 2 ^ (ex - ez)).
    { rewrite <- Z.pow_add_r by lia. f_equal. lia. }
    assert (Hsplity : 2 ^ (- ez) = 2 ^ (- ey) * 2 ^ (ey - ez)).
    { rewrite <- Z.pow_add_r by lia. f_equal. lia. }
    apply SF_between_round; try lia.
    rewrite Pos2Z.inj_add, Hmx, Hmy, !Z.mul_add_distr_r.
    rewrite Hsplitx at 1 3. rewrite Hsplity. nia.
Qed.

Lemma mul_between (x y : float) (Ax Bx Ay By : Z) :
  float_between x Ax Bx -> float_between y Ay By ->
  0 <= Ax -> 0 <= Ay -> Bx * By < 2 ^ 53 ->
  float_between (x * y) (Ax * Ay) (Bx * By).
Proof.
  unfold float_between. rewrite FloatAxioms.mul_spec. apply SFmul_between.
Qed.

Lemma add_between (x y : float) (Ax Bx Ay By : Z) :
  float_between x Ax Bx -> float_between y Ay By ->
  0 <= Ax -> 0 <= Ay -> Bx + By < 2 ^ 53 ->
  float_between (x + y) (Ax + Ay) (Bx + By).
Proof.
  unfold float_between. rewrite FloatAxioms.add_spec. apply SFadd_between.
Qed.

(** [float(k)] for an integer below [2^53] is [k] itself. *)
Lemma of_uint63_between (k : Z) :
  0 <= k < 2 ^ 53 ->
  float_between (py_float k) k k.
Proof.
  intros Hk. unfold float_between, py_float.
  rewrite FloatAxioms.of_uint63_spec, Uint63.of_Z_spec.
  rewrite Z.mod_small by (change Uint63.wB with (2 ^ 63); lia).
  destruct k as [|p|p]; [cbn; lia | | lia].
  cbn [binary_normalize]. apply SF_between_round; try lia.
Qed.

Lemma fraction_between (k : Z) :
  0 <= k < 2 ^ 53 ->
  float_between (py_float k * 0x1p-53) 0 1.
Proof.
  intros Hk. pose proof (of_uint63_between k Hk) as Hf.
  unfold float_between, py_float in *. rewrite FloatAxioms.mul_spec.
  change (Prim2SF 0x1p-53) with (S754_finite false 4503599627370496 (-105)).
  destruct (Prim2SF (PrimFloat.of_uint63 (Uint63.of_Z k))) as [s|s| |s m e]; cbn in Hf;
    try contradiction; cbn [SF64mul SFmul].
  - cbn. lia.
  - destruct Hf as (-> & He & Hlo & Hhi). cbn [xorb].
    assert (0 < 2 ^ (- e)) by (apply Z.pow_pos_nonneg; lia).
    assert (Hsplit : 2 ^ (- (e + -105)) = 2 ^ (- e) * 2 ^ 105).
    { rewrite <- Z.pow_add_r by lia. f_equal. lia. }
    assert (Hm : Z.pos m <= (2 ^ 53 - 1) * 2 ^ (- e)) by nia.
    change (2 ^ 53) with 9007199254740992 in Hm.
    change (2 ^ 105) with (9007199254740992 * 4503599627370496) in Hsplit.
    apply SF_between_rounded; rewrite ?Hsplit, ?Pos2Z.inj_mul; try lia.
Qed.

Lemma new_location_exact (n r : Z) :
  new_location n r <> loc_Exact -> r <> 0.
Proof.
  unfold new_location, new_location_even, new_location_odd.
  intros H ->. destruct (Z.even n); cbn in H; congruence.
Qed.

Lemma digits_above (p : positive) (n : Z) :
  2 ^ n <= Z.pos p -> n < Z.pos (digits2_pos p).
Proof.
  intros Hp. pose proof (digits2_pos_upper p) as Hup.
  destruct (Z.lt_ge_cases n (Z.pos (digits2_pos p))) as [|Hge]; [assumption|].
  assert (2 ^ Z.pos (digits2_pos p) <= 2 ^ n) by (apply Z.pow_le_mono_r; lia).
  lia.
Qed.

(** The quotient of such a float by a positive integer [D]. *)
Lemma SFdiv_between (x y : spec_float) (A B D : Z) :
  SF_between x (A * D) (B * D) -> SF_between y D D ->
  0 < D -> 0 <= A -> B < 2 ^ 53 -> B * D < 2 ^ 53 ->
  SF_between (SFdiv prec emax x y) A B.
Proof.
  intros Hx Hy HD HA HB HBD.
  destruct y as [sy|sy| |sy my ey]; cbn in Hy; try contradiction; [lia|].
  destruct Hy as (-> & Hey & Hloy & Hhiy).
  assert (Hmy : Z.pos my = D * 2 ^ (- ey)) by lia. clear Hloy Hhiy.
  assert (HEy : 0 < 2 ^ (- ey)) by (apply Z.pow_pos_nonneg; lia).
  destruct x as [sx|sx| |sx mx ex]; cbn in Hx; try contradiction; cbn [SFdiv].
  { cbn. nia. }
  destruct Hx as (-> & Hex & Hlox & Hhix). cbn [xorb].
  assert (HEx : 0 < 2 ^ (- ex)) by (apply Z.pow_pos_nonneg; lia).
  unfold SFdiv_core_binary.
  set (e' := Z.min (fexp prec emax (Zdigits2 (Z.pos mx) + ex - (Zdigits2 (Z.pos my) + ey)))
               (ex - ey)).
  set (s := ex - ey - e').
  assert (Hs : 0 <= s) by (unfold s, e'; lia).
  assert (He' : e' <= 0).
  { assert (Hd1 : Zdigits2 (Z.pos mx) + ex <= 53).
    { cbn [Zdigits2].
      assert (Z.pos mx < 2 ^ (53 - ex)).
      { replace (53 - ex) with (53 + - ex) by lia. rewrite Z.pow_add_r by lia. nia. }
      pose proof (digits_below mx (53 - ex) H). lia. }
    assert (Hd2 : 0 < Zdigits2 (Z.pos my) + ey).
    { cbn [Zdigits2].
      assert (2 ^ (- ey) <= Z.pos my) by nia.
      pose proof (digits_above my (- ey) H). lia. }
    unfold e', fexp, SpecFloat.emin, prec, emax. lia. }
  set (m' := match s with
             | 0 => Z.pos mx
             | Z.pos _ => Z.shiftl (Z.pos mx) s
             | Z.neg _ => 0
             end).
  assert (Hm' : m' = Z.pos mx * 2 ^ s).
  { unfold m'. destruct s as [|p|p] eqn:Hp; [cbn; lia | | lia].
    apply Z.shiftl_mul_pow2. lia. }
  pose proof (Z_div_mod m' (Z.pos my) ltac:(lia)) as Hdiv.
  destruct (Z.div_eucl m' (Z.pos my)) as [q r]. destruct Hdiv as [Hq Hr].
  assert (HEs : 0 < 2 ^ s) by (apply Z.pow_pos_nonneg; lia).
  assert (HE' : 0 < 2 ^ (- e')) by (apply Z.pow_pos_nonneg; lia).
  assert (Hsplit : 2 ^ (- ey) * 2 ^ (- e') = 2 ^ (- ex) * 2 ^ s).
  { rewrite <- !Z.pow_add_r by lia. f_equal. unfold s. lia. }
  assert (Hlo' : A * 2 ^ (- e') * Z.pos my <= m').
  { rewrite Hm', Hmy.
    replace (A * 2 ^ (- e') * (D * 2 ^ (- ey)))
      with (A * D * (2 ^ (- ey) * 2 ^ (- e'))) by ring.
    rewrite Hsplit. nia. }
  assert (Hhi' : m' <= B * 2 ^ (- e') * Z.pos my).
  { rewrite Hm', Hmy.
    replace (B * 2 ^ (- e') * (D * 2 ^ (- ey)))
      with (B * D * (2 ^ (- ey) * 2 ^ (- e'))) by ring.
    rewrite Hsplit. nia. }
  assert (Hq0 : 0 <= q) by nia.
  apply SF_between_rounded; try lia.
  - assert (Z.pos my * (A * 2 ^ (- e')) < Z.pos my * (q + 1)) by lia.
    apply Z.mul_lt_mono_pos_l in H; lia.
  - assert (Z.pos my * q <= Z.pos my * (B * 2 ^ (- e'))) by lia.
    apply Z.mul_le_mono_pos_l in H; lia.
  - intros Hl%new_location_exact.
    assert (Z.pos my * q < Z.pos my * (B * 2 ^ (- e'))) by lia.
    apply Z.mul_lt_mono_pos_l in H; lia.
Qed.

Lemma div_between (x y : float) (A B D : Z) :
  float_between x (A * D) (B * D) -> float_between y D D ->
  0 < D -> 0 <= A -> B < 2 ^ 53 -> B * D < 2 ^ 53 ->
  float_between (x / y) A B.
Proof.
  unfold float_between. rewrite FloatAxioms.div_spec. apply SFdiv_between.
Qed.

(** The mantissa of a float has at most 53 bits, and exactly 53 when the
    exponent is not the least one. *)
Lemma valid_mantissa (x : float) (s : bool) (m : positive) (e : Z) :
  Prim2SF x = S754_finite s m e ->
  Z.pos m < 2 ^ 53 /\ -1074 <= e /\ (-1074 < e -> 2 ^ 52 <= Z.pos m).
Proof.
  intros Hx. pose proof (Prim2SF_valid x) as Hv. rewrite Hx in Hv.
  cbn [SpecFloat.valid_binary] in Hv. unfold bounded, canonical_mantissa in Hv.
  apply andb_prop in Hv as [Hc%Z.eqb_eq _].
  unfold fexp, SpecFloat.emin, prec, emax in Hc.
  pose proof (digits2_pos_upper m) as Hup.
  pose proof (digits2_pos_lower m) as Hlow.
  assert (Hd : Z.pos (digits2_pos m) <= 53) by lia.
  split; [|split; [lia|]].
  - assert (2 ^ Z.pos (digits2_pos m) <= 2 ^ 53) by (apply Z.pow_le_mono_r; lia). lia.
  - intros He. assert (Z.pos (digits2_pos m) = 53) by lia.
    rewrite H in Hlow. exact Hlow.
Qed.

(** Comparison of floats that an integer separates. *)
Lemma leb_between (x y : float) (A B C D : Z) :
  float_between x A B -> float_between y C D -> B <= C ->
  (x <=? y)%float = true.
Proof.
  unfold float_between. intros Hx Hy HBC. rewrite FloatAxioms.leb_spec.
  pose proof (valid_mantissa x) as Hvx. pose proof (valid_mantissa y) as Hvy.
  destruct (Prim2SF x) as [sx|sx| |sx mx ex], (Prim2SF y) as [sy|sy| |sy my ey];
    cbn in Hx, Hy; try contradiction; unfold SFleb, SFcompare.
  - reflexivity.
  - destruct Hy as (-> & _). reflexivity.
  - destruct Hx as (-> & He & Hlo & Hhi).
    assert (0 < 2 ^ (- ex)) by (apply Z.pow_pos_nonneg; lia). nia.
  - destruct Hx as (-> & Hex & Hlox & Hhix), Hy as (-> & Hey & Hloy & Hhiy).
    destruct (Hvx _ _ _ eq_refl) as (Hx53 & Hexmin & Hx52).
    destruct (Hvy _ _ _ eq_refl) as (Hy53 & Heymin & Hy52).
    assert (HEx : 0 < 2 ^ (- ex)) by (apply Z.pow_pos_nonneg; lia).
    assert (HEy : 0 < 2 ^ (- ey)) by (apply Z.pow_pos_nonneg; lia).
    destruct (Z.compare_spec ex ey) as [-> | Hlt | Hgt]; [|reflexivity|].
    + change (Pos.compare_cont Eq mx my) with (Pos.compare mx my).
      assert (Hle : (mx <= my)%positive) by (apply Pos2Z.pos_le_pos; nia).
      unfold Pos.le in Hle. destruct (mx ?= my)%positive; congruence.
    + exfalso.
      assert (Hsplit : 2 ^ (- ey) = 2 ^ (- ex) * 2 ^ (ex - ey)).
      { rewrite <- Z.pow_add_r by lia. f_equal. lia. }
      assert (2 ^ 1 <= 2 ^ (ex - ey)) by (apply Z.pow_le_mono_r; lia).
      specialize (Hx52 ltac:(lia)).
      change (2 ^ 1) with 2 in *. change (2 ^ 52) with 4503599627370496 in *.
      change (2 ^ 53) with 9007199254740992 in *.
      rewrite Hsplit in Hloy. nia.
Qed.

Lemma uniform_between (a b u : float) (A C : Z) :
  float_between a A A -> float_between (b - a) C C -> float_between u 0 1 ->
  0 <= A -> 0 <= C -> A + C < 2 ^ 53 ->
  float_between (a + (b - a) * u) A (A + C).
Proof.
  intros Ha Hc Hu HA HC Hsum.
  pose proof (mul_between (b - a) u C C 0 1 Hc Hu HC ltac:(lia) ltac:(lia)) as Hp.
  rewrite Z.mul_0_r, Z.mul_1_r in Hp.
  pose proof (add_between a ((b - a) * u) A A 0 C Ha Hp HA ltac:(lia) Hsum) as Hs.
  now rewrite Z.add_0_r in Hs.
Qed.

(** A float literal that is an integer. *)
Ltac float_literal :=
  unfold float_between;
  match goal with
  | |- SF_between (Prim2SF ?c) _ _ =>
      let v := eval vm_compute in (Prim2SF c) in
      change (Prim2SF c) with v
  end;
  cbn [SF_between];
  split; [reflexivity | split; [discriminate | split; apply Z.leb_le; reflexivity]].

Lemma round2_between (x : float) (A B : Z) :
  float_between x A B -> 0 < A -> B < 2 ^ 46 ->
  exists cents,
    A * 100 <= cents <= B * 100 /\
    round2 x = (py_float cents / 100)%float /\
    float_between (round2 x) A B.
Proof.
  unfold float_between at 1, round2. intros Hx HA HB.
  destruct (Prim2SF x) as [s|s| |s m e]; cbn in Hx; try contradiction; [lia|].
  destruct Hx as (-> & He & Hlo & Hhi).
  assert (HE : 0 < 2 ^ (- e)) by (apply Z.pow_pos_nonneg; lia).
  assert (Hsmall : (46 <? Z.pos (digits2_pos m) + e) = false).
  { apply Z.ltb_ge.
    assert (Z.pos m < 2 ^ (46 - e)).
    { replace (46 - e) with (46 + - e) by lia. rewrite Z.pow_add_r by lia. nia. }
    pose proof (digits_below m (46 - e) H). lia. }
  rewrite Hsmall. cbv zeta.
  set (cents := round_half_even (float_value m e * inject_Z 100)).
  assert (Hcents : A * 100 <= cents <= B * 100).
  { apply round_half_even_bounds; unfold float_value, Qle; cbn [Qmult Qnum Qden inject_Z];
      rewrite (Z.max_r e 0), (Z.max_l (- e) 0) by lia; rewrite Pos2Z.inj_mul, Z2Pos.id by lia;
      change (2 ^ 0) with 1; nia. }
  exists cents. split; [exact Hcents|]. split; [reflexivity|].
  change (2 ^ 46) with 70368744177664 in HB.
  change (2 ^ 53) with 9007199254740992.
  apply (div_between _ _ A B 100); try lia.
  - unfold float_between.
    eapply SF_between_weaken; [apply (of_uint63_between cents)| |]; try lia.
  - float_literal.
Qed.

(** ** Random draws of floats *)

Lemma draws_random : draws random_random (fun u => float_between u 0 1).
Proof.
  intros w g. unfold random_random. cbv [mbind prog_bind mret prog_ret].
  cbn [bind run]. eexists _, _. split; [reflexivity|]. split; [reflexivity|].
  apply fraction_between.
  pose proof (N.mod_lt (entropy w (rng_cursor g)) (2 ^ 53)%N ltac:(discriminate)) as H.
  set (k := (entropy w (rng_cursor g) mod 2 ^ 53)%N) in *.
  change (2 ^ 53)%N with 9007199254740992%N in H.
  change (2 ^ 53) with 9007199254740992. lia.
Qed.

Lemma draws_uniform (a b : float) (A C : Z) :
  float_between a A A -> float_between (b - a) C C ->
  0 <= A -> 0 <= C -> A + C < 2 ^ 53 ->
  draws (random_uniform a b) (fun x => float_between x A (A + C)).
Proof.
  intros Ha Hc HA HC Hsum. unfold random_uniform.
  eapply draws_bind; [apply draws_random|].
  intros u Hu. apply draws_ret. now apply uniform_between.
Qed.

(** Rounding a float between [lo] and [hi] to two decimals gives an
    amount between [lo] and [hi]. *)
Lemma amount_in_range (x : float) (lo hi : Z) :
  float_between x lo hi -> 0 < lo -> hi < 2 ^ 46 ->
  amount_between lo hi (round2 x).
Proof.
  intros Hx Hlo Hhi.
  destruct (round2_between x lo hi Hx Hlo Hhi) as (cents & Hc & Hr & Hb).
  assert (lo <= hi).
  { destruct Hc as [H1 H2]. lia. }
  change (2 ^ 46) with 70368744177664 in Hhi.
  split; [exists cents; auto|]. split.
  - apply (leb_between _ _ lo lo lo hi); [|assumption|lia].
    apply of_uint63_between. change (2 ^ 53) with 9007199254740992. lia.
  - apply (leb_between _ _ lo hi hi hi); [assumption| |lia].
    apply of_uint63_between. change (2 ^ 53) with 9007199254740992. lia.
Qed.

(** ** The request generators *)

Lemma draws_transaction_id : draws generate_transaction_id is_transaction_id.
Proof.
  intros w g. eexists _, _. simpl. repeat split.
  eexists. split; [reflexivity|]. split.
  - apply upto_length. unfold uuid_hex. rewrite hex_fixed_length. lia.
  - apply upto_hex, hex_fixed_hex.
Qed.

Lemma draws_amount (a b : float) (lo hi : Z) :
  float_between a lo lo -> float_between (b - a) (hi - lo) (hi - lo) ->
  0 < lo <= hi -> hi < 2 ^ 46 ->
  draws (random_uniform a b) (fun x => amount_between lo hi (round2 x)).
Proof.
  intros Ha Hc [Hlo Hle] Hhi. eapply draws_weaken.
  - apply (draws_uniform a b lo (hi - lo)); try assumption; lia.
  - intros x Hx. cbv beta in Hx.
    replace (lo + (hi - lo)) with hi in Hx by lia.
    now apply amount_in_range.
Qed.

Arguments round2 : simpl never.

(** One step of a generator: the next draw and what is known of it. *)
Ltac draw :=
  eapply draws_bind;
  [ first [ apply draws_transaction_id
          | apply draws_choice; discriminate
          | apply draws_randint; lia
          | apply (draws_amount 10 2000 10 2000);
              [float_literal | float_literal | lia | reflexivity]
          | apply (draws_amount 10 500 10 500);
              [float_literal | float_literal | lia | reflexivity]
          | apply (draws_amount 50 200 50 200);
              [float_literal | float_literal | lia | reflexivity] ]
  | cbv beta; intros ? ? ].

Lemma generate_AUTH_request_in_range :
  draws generate_AUTH_request
    (fun p => auth_fields_in_range CARD_HASHES 10 2000 p /\ network_matches p).
Proof.
  unfold generate_AUTH_request, generate_card_bin.
  do 16 draw. apply draws_ret.
  unfold auth_fields_in_range, network_matches, numbered, is_ip_address; simpl.
  match goal with H : amount_between _ _ _ |- _ => destruct H as (? & ? & ?) end.
  repeat split; eauto 6.
  repeat match goal with
         | |- context [if ?b then _ else _] => destruct b
         end; auto.
Qed.

Lemma generate_MONITORING_request_in_range :
  draws generate_MONITORING_request monitoring_fields_in_range.
Proof.
  unfold generate_MONITORING_request.
  do 8 draw. apply draws_ret.
  unfold monitoring_fields_in_range, numbered; simpl.
  match goal with H : amount_between _ _ _ |- _ => destruct H as (? & ? & ?) end.
  repeat split; eauto.
Qed.

Lemma generate_velocity_burst_request_in_range :
  draws generate_velocity_burst_request
    (fun p => auth_fields_in_range ["velocity_test_card"] 50 200 p /\
              network_matches p).
Proof.
  unfold generate_velocity_burst_request.
  eapply draws_bind; [apply generate_AUTH_request_in_range|].
  intros req [Hreq Hnet]. draw. apply draws_ret.
  unfold auth_fields_in_range in *. simpl.
  split; [|exact Hnet]. intuition.
Qed.

(** C6: an AUTH payload carries one of the eight card bins, and its network
    label is VISA for a bin that starts with 4, MASTERCARD for one that starts
    with 5 and AMEX for any other. *)
Theorem auth_card_network_follows_bin (w : world) (g : globals) :
  exists p g',
    run w generate_AUTH_request g = (Returned p, g', []) /\
    In (card_bin p)
      ["411111"; "400000"; "450000"; "555555"; "520000"; "540000";
       "340000"; "370000"] /\
    card_network p =
      (if startswith (card_bin p) "4" then "VISA"
       else if startswith (card_bin p) "5" then "MASTERCARD" else "AMEX").
Proof.
  destruct (generate_AUTH_request_in_range w g) as (p & g' & Hrun & _ & Hfields & Hnet).
  exists p, g'. split; [exact Hrun|]. split; [|exact Hnet].
  apply Hfields.
Qed.

(** C7: every field of a generated payload lies in its pool or range, and
    the amount is the float of a whole number of hundredths, within 10.00 and
    2000.00 for AUTH, 10.00 and 500.00 for MONITORING, 50.00 and 200.00 for
    the velocity burst; the amounts are computed in binary64 as the script
    computes them. *)
Theorem generated_fields_in_range (w : world) (g : globals) :
  (exists p g',
     run w generate_AUTH_request g = (Returned p, g', []) /\
     auth_fields_in_range CARD_HASHES 10 2000 p) /\
  (exists p g',
     run w generate_MONITORING_request g = (Returned p, g', []) /\
     monitoring_fields_in_range p) /\
  (exists p g',
     run w generate_velocity_burst_request g = (Returned p, g', []) /\
     auth_fields_in_range ["velocity_test_card"] 50 200 p).
Proof.
  split; [|split].
  - destruct (generate_AUTH_request_in_range w g) as (p & g' & Hrun & _ & Hf & _).
    eauto.
  - destruct (generate_MONITORING_request_in_range w g) as (p & g' & Hrun & _ & Hf).
    eauto.
  - destruct (generate_velocity_burst_request_in_range w g)
      as (p & g' & Hrun & _ & Hf & _).
    eauto.
Qed.

(** ** The response classifier *)

(** What [_handle_response] records when [json()] gives an object or
    raises [JSONDecodeError], and for the other statuses: success for a 200
    whose body is an object with engine mode NORMAL or none, a failure
    carrying mode and error code for FAIL_OPEN and DEGRADED, a failure for a
    200 whose body is not JSON, the auth and forbidden failures for 401 and
    403, and a failure with status and first 100 characters of the body for
    every other status. *)
Lemma handle_response_classification (w : world) (g : globals)
    (response : http_response) (eval_type : string) :
  let marks := run w (CardFraudUser__handle_response response eval_type) g in
  (status_code response = 200 ->
     (forall items,
        json response = inr (VDict items) ->
        assoc "engine_mode" items = None \/
        assoc "engine_mode" items = Some (VStr "NORMAL") ->
        marks = (Returned tt, g, [ESuccess])) /\
     (forall items mode,
        json response = inr (VDict items) ->
        assoc "engine_mode" items = Some (VStr mode) ->
        mode = "FAIL_OPEN" \/ mode = "DEGRADED" ->
        marks = (Returned tt, g,
                 [EFailure (mode +:+ ": " +:+
                    py_str (default (VStr "UNKNOWN")
                              (assoc "engine_error_code" items)))])) /\
     (forall msg,
        json response = inl (JSONDecodeError msg) ->
        marks = (Returned tt, g, [EFailure "Invalid JSON response"]))) /\
  (status_code response = 401 ->
     marks = (Returned tt, g,
              [EFailure "Auth failed - check JWT_TOKEN or use NO_AUTH=true"])) /\
  (status_code response = 403 ->
     marks = (Returned tt, g, [EFailure "Forbidden - check scopes"])) /\
  (status_code response <> 200 -> status_code response <> 401 ->
   status_code response <> 403 ->
     marks = (Returned tt, g,
              [EFailure ("Status " +:+ pretty (status_code response) +:+ ": "
                         +:+ upto 100 (text response))])).
Proof.
  intros marks; subst marks; unfold CardFraudUser__handle_response.
  split; [intros Hs; rewrite Hs; simpl; split; [|split] | split; [|split]].
  - intros items Hj Hmode.
    unfold response_json; rewrite Hj; simpl.
    destruct Hmode as [-> | ->]; reflexivity.
  - intros items mode Hj Hmode Hm.
    unfold response_json; rewrite Hj; simpl. rewrite Hmode.
    destruct Hm as [-> | ->]; simpl;
      destruct (assoc "engine_error_code" items); reflexivity.
  - intros msg Hj.
    unfold response_json; rewrite Hj; reflexivity.
  - intros ->; reflexivity.
  - intros ->; reflexivity.
  - intros H200 H401 H403.
    apply Z.eqb_neq in H200, H401, H403. rewrite H200, H401, H403.
    reflexivity.
Qed.

(** X6: a 200 whose body is JSON but not an object (a list, a number,
    null): [data.get] raises [AttributeError], which the classifier does not
    catch; no verdict is recorded. *)
Lemma handle_response_non_object (w : world) (g : globals)
    (response : http_response) (eval_type : string) (data : pyval) :
  status_code response = 200 ->
  json response = inr data ->
  (forall items, data <> VDict items) ->
  run w (CardFraudUser__handle_response response eval_type) g =
    (Raised (AttributeError
               ("'" +:+ type_name data +:+ "' object has no attribute 'get'")),
     g, []).
Proof.
  intros Hs Hj Hno. unfold CardFraudUser__handle_response, response_json.
  rewrite Hs, Hj. destruct data; try reflexivity.
  now destruct (Hno items).
Qed.

(** X7: on a 200 any engine mode other than the strings FAIL_OPEN and
    DEGRADED counts as a success, whatever its value and type. *)
Lemma handle_response_other_modes (w : world) (g : globals)
    (response : http_response) (eval_type : string)
    (items : list (string * pyval)) (mode : pyval) :
  status_code response = 200 ->
  json response = inr (VDict items) ->
  assoc "engine_mode" items = Some mode ->
  in_strs mode ["FAIL_OPEN"; "DEGRADED"] = false ->
  run w (CardFraudUser__handle_response response eval_type) g =
    (Returned tt, g, [ESuccess]).
Proof.
  intros Hs Hj Hmode Hin. unfold CardFraudUser__handle_response, response_json.
  rewrite Hs, Hj. simpl. rewrite Hmode.
  unfold in_strs in Hin. simpl in Hin. rewrite Hin. reflexivity.
Qed.

(** ** The shared token *)

Arguments all_set : simpl never.

(** Case analysis on what the world answered and on how it decodes. *)
Ltac prog_simpl :=
  cbv [decode http_error_read json_loads dict_get mbind prog_bind mret prog_ret
       print sys_exit set_cached_token get_cached_token urlopen response_json
       response_success response_failure client_post];
  cbn [run emit bind try_except fst snd app negb truthy is_not_None].

Ltac answer_cases :=
  repeat (prog_simpl;
    match goal with
    | |- context [match urlopen_answer ?w ?s ?rq with _ => _ end] =>
        destruct (urlopen_answer w s rq) eqn:?
    | |- context [match loads ?t with _ => _ end] => destruct (loads t) eqn:?
    | |- context [match assoc ?k ?l with _ => _ end] => destruct (assoc k l) eqn:?
    | |- context [if truthy ?v then _ else _] => destruct (truthy v) eqn:?
    | |- context [match json ?r with _ => _ end] => destruct (json r) eqn:?
    | |- context [if in_strs ?v ?l then _ else _] => destruct (in_strs v l) eqn:?
    | |- context [match ?x with _ => _ end] =>
        is_var x;
        lazymatch type of x with
        | pyval => idtac | exn => idtac | py_bytes => idtac
        | sum _ _ => idtac | py_text => idtac | error_body => idtac
        | error => idtac
        end;
        destruct x
    end).

(** A trace given event by event. *)
Ltac each_event :=
  repeat first [ apply List.Forall_nil | apply List.Forall_cons ];
  try (split; [reflexivity | exact I]).

Lemma cached_token_is_returned (w : world) (g : globals) :
  NO_AUTH = false ->
  is_not_None (_cached_token g) = true ->
  run w _get_shared_token g = (Returned (_cached_token g), g, []).
Proof.
  intros Hauth Hc. unfold _get_shared_token. rewrite Hauth. simpl.
  rewrite Hc. reflexivity.
Qed.

Lemma returned_token_is_cached (w : world) (g g1 : globals) (tok : pyval)
    (t : list event) :
  NO_AUTH = false ->
  run w _get_shared_token g = (Returned tok, g1, t) ->
  _cached_token g1 = tok /\ is_not_None tok = true.
Proof.
  intros Hauth. unfold _get_shared_token. rewrite Hauth. simpl.
  destruct (is_not_None (_cached_token g)) eqn:Hc.
  { simpl. intros [= <- <-]. auto. }
  destruct (all_set _); simpl; [|discriminate].
  answer_cases; try discriminate.
  all: intros [= <- <- _]; simpl; split; [reflexivity|].
  all: match goal with
       | H : truthy ?v = true |- _ => destruct v; try reflexivity; discriminate H
       end.
Qed.

(** C2: once a call of [_get_shared_token] has returned a token (auth
    enabled), the token is the cached one, and every later call, whatever
    the world would answer, returns that same token, sends nothing and leaves
    the cache as it is. *)
Theorem token_fetch_idempotent (w : world) (g g1 : globals) (tok : pyval)
    (t : list event) (ws : list world) :
  NO_AUTH = false ->
  run w _get_shared_token g = (Returned tok, g1, t) ->
  _cached_token g1 = tok /\
  run_each ws _get_shared_token g1 = (map (fun _ => Returned tok) ws, g1, []).
Proof.
  intros Hauth Hfirst.
  destruct (returned_token_is_cached w g g1 tok t Hauth Hfirst) as [Hc Hsome].
  split; [exact Hc|].
  induction ws as [|w' ws IH]; [reflexivity|].
  simpl. rewrite cached_token_is_returned by (rewrite ?Hc; assumption).
  rewrite Hc, IH. reflexivity.
Qed.

(** ** Failures of the token fetch *)

Lemma get_shared_token_sends (w : world) (g : globals) :
  NO_AUTH = false ->
  _cached_token g = VNone ->
  all_set [AUTH0_DOMAIN; AUTH0_CLIENT_ID; AUTH0_CLIENT_SECRET; AUTH0_AUDIENCE] = true ->
  exists rest,
    snd (run w _get_shared_token g) = EUrlopen IdentityEndpoint token_request :: rest.
Proof.
  intros Hauth Hc Hset. unfold _get_shared_token. rewrite Hauth.
  prog_simpl. rewrite Hc, Hset. prog_simpl.
  destruct (run w _ g) as [[o g'] t]. eexists. reflexivity.
Qed.

Lemma missing_configuration_exits (w : world) (g : globals) :
  NO_AUTH = false ->
  _cached_token g = VNone ->
  all_set [AUTH0_DOMAIN; AUTH0_CLIENT_ID; AUTH0_CLIENT_SECRET; AUTH0_AUDIENCE] = false ->
  run w _get_shared_token g =
    (Exited 1, g,
     [EPrint "WARNING: Auth0 env vars not set and NO_AUTH is not true.";
      EPrint "  Set NO_AUTH=true for no-auth mode, or provide Auth0 credentials.";
      EPrint "  Required: AUTH0_DOMAIN, AUTH0_CLIENT_ID, AUTH0_CLIENT_SECRET, AUTH0_AUDIENCE"]).
Proof.
  intros Hauth Hc Hset. unfold _get_shared_token. rewrite Hauth.
  prog_simpl. rewrite Hc, Hset. reflexivity.
Qed.

(** When auth is required and the fetch does not succeed, the function
    prints and exits with status 1: on missing configuration, on any
    exception of the call other than an [HTTPError] whose body cannot be
    read or decoded, on an undecodable or malformed body, and on a body
    without a truthy [access_token]. *)
Lemma token_fetch_fails_fast (w : world) (g : globals) :
  NO_AUTH = false ->
  _cached_token g = VNone ->
  (all_set [AUTH0_DOMAIN; AUTH0_CLIENT_ID; AUTH0_CLIENT_SECRET; AUTH0_AUDIENCE] = true ->
   (forall tok, ~ carries_token (urlopen_answer w IdentityEndpoint token_request) tok) /\
   ~ undecodable_error (urlopen_answer w IdentityEndpoint token_request) /\
   ~ unreadable_error (urlopen_answer w IdentityEndpoint token_request)) ->
  exists t line,
    run w _get_shared_token g = (Exited 1, g, t) /\ In (EPrint line) t.
Proof.
  intros Hauth Hc Hfail. unfold _get_shared_token. rewrite Hauth.
  prog_simpl. rewrite Hc. prog_simpl.
  destruct (all_set _) eqn:Hset; prog_simpl.
  2: { eexists _, _. split; [reflexivity | left; reflexivity]. }
  destruct (Hfail eq_refl) as (Hno & Hdec & Hread). unfold token_request in *.
  answer_cases;
    try (eexists _, _; split; [reflexivity | right; left; reflexivity]).
  all: exfalso.
  all: first
    [ apply Hdec; eexists _, _, _; reflexivity
    | apply Hread; eexists _, _, _; reflexivity
    | match goal with
      | p : py_text |- _ =>
          destruct p as [body l]; simpl in *; subst l;
          eapply Hno; eexists _, _; split; [reflexivity | eauto]
      end ].
Qed.

(** The one failure that does not exit: an [HTTPError] whose body cannot
    be decoded raises [UnicodeDecodeError] out of the handler, after the
    first diagnostic line. *)
Lemma token_fetch_undecodable_error (w : world) (g : globals)
    (code : Z) (reason msg : string) :
  NO_AUTH = false ->
  _cached_token g = VNone ->
  all_set [AUTH0_DOMAIN; AUTH0_CLIENT_ID; AUTH0_CLIENT_SECRET; AUTH0_AUDIENCE] = true ->
  urlopen_answer w IdentityEndpoint token_request =
    inl (HTTPError code reason (Bytes (inl msg))) ->
  run w _get_shared_token g =
    (Raised (UnicodeDecodeError msg), g,
     [EUrlopen IdentityEndpoint token_request;
      EPrint ("ERROR: Auth0 token fetch failed: HTTP " +:+ pretty code)]).
Proof.
  intros Hauth Hc Hset Hanswer. unfold _get_shared_token. rewrite Hauth.
  prog_simpl. rewrite Hc, Hset. prog_simpl.
  unfold token_request in Hanswer. rewrite Hanswer. reflexivity.
Qed.

(** The same when the body of the [HTTPError] cannot be read: what
    [e.read()] raises leaves the handler. *)
Lemma token_fetch_unreadable_error (w : world) (g : globals)
    (code : Z) (reason : string) (e : error) :
  NO_AUTH = false ->
  _cached_token g = VNone ->
  all_set [AUTH0_DOMAIN; AUTH0_CLIENT_ID; AUTH0_CLIENT_SECRET; AUTH0_AUDIENCE] = true ->
  urlopen_answer w IdentityEndpoint token_request =
    inl (HTTPError code reason (Unreadable e)) ->
  run w _get_shared_token g =
    (Raised e, g,
     [EUrlopen IdentityEndpoint token_request;
      EPrint ("ERROR: Auth0 token fetch failed: HTTP " +:+ pretty code)]).
Proof.
  intros Hauth Hc Hset Hanswer. unfold _get_shared_token. rewrite Hauth.
  prog_simpl. rewrite Hc, Hset. prog_simpl.
  unfold token_request in Hanswer. rewrite Hanswer. reflexivity.
Qed.

(** ** Requests without credentials *)

Lemma run_draws_bind {A B} (gen : prog A) (P : A -> Prop) (f : A -> prog B)
    (w : world) (g : globals) :
  draws gen P ->
  exists a g', P a /\ run w (gen ≫= f) g = run w (f a) g'.
Proof.
  intros Hgen. destruct (Hgen w g) as (a & g' & Hrun & _ & Ha).
  exists a, g'. split; [assumption|].
  unfold mbind, prog_bind. rewrite run_bind, Hrun.
  destruct (run w (f a) g') as [[o g2] t2]. reflexivity.
Qed.

Ltac through_generator H :=
  match goal with
  | |- context [run ?w (?gen ≫= ?f) ?g] =>
      destruct (run_draws_bind gen _ f w g H) as (? & ? & _ & ->)
  end.

Lemma handle_response_only_marks (w : world) (g : globals)
    (response : http_response) (eval_type : string) :
  Forall no_credentials
    (snd (run w (CardFraudUser__handle_response response eval_type) g)).
Proof.
  unfold CardFraudUser__handle_response.
  destruct (status_code response =? 200);
    [|destruct (status_code response =? 401);
      [|destruct (status_code response =? 403)]];
    answer_cases; each_event.
Qed.

Lemma post_then_classify (w : world) (g : globals) (c : post_call)
    (eval_type : string) :
  pc_headers c !! "Authorization" = None ->
  Forall no_credentials
    (snd (run w (client_post c ≫=
                 fun response => CardFraudUser__handle_response response eval_type) g)).
Proof.
  intros Hc. unfold mbind, prog_bind, client_post. simpl.
  pose proof (handle_response_only_marks w g (target_answer w c) eval_type) as Hm.
  destruct (run w _ g) as [[o g2] t2]. simpl in *.
  constructor; [split; [reflexivity | exact Hc] | exact Hm].
Qed.

Lemma tasks_send_the_user_headers (cls : user_class) (weight : nat)
    (task : user -> prog unit) (self : user) (w : world) (g : globals) :
  In cls user_classes ->
  In (weight, task) (tasks cls) ->
  headers self !! "Authorization" = None ->
  Forall no_credentials (snd (run w (task self) g)).
Proof.
  intros Hcls Htask Hself.
  assert (Hauth : Forall no_credentials
                    (snd (run w (CardFraudUser_AUTH_evaluation self) g))).
  { unfold CardFraudUser_AUTH_evaluation.
    through_generator generate_AUTH_request_in_range.
    apply post_then_classify. exact Hself. }
  assert (Hmon : Forall no_credentials
                   (snd (run w (CardFraudUser_MONITORING_evaluation self) g))).
  { unfold CardFraudUser_MONITORING_evaluation.
    through_generator generate_MONITORING_request_in_range.
    apply post_then_classify. exact Hself. }
  assert (Hvel : Forall no_credentials
                   (snd (run w (VelocityTestUser_velocity_burst self) g))).
  { unfold VelocityTestUser_velocity_burst.
    through_generator generate_velocity_burst_request_in_range.
    apply post_then_classify. exact Hself. }
  assert (Hsteady : Forall no_credentials
                      (snd (run w (SteadyStateUser_AUTH_only self) g))).
  { unfold SteadyStateUser_AUTH_only.
    through_generator generate_AUTH_request_in_range.
    simpl. constructor; [split; [reflexivity | exact Hself] | constructor]. }
  simpl in Hcls.
  destruct Hcls as [<-|[<-|[<-|[<-|[]]]]]; simpl in Htask;
    repeat (destruct Htask as [[= <- <-]|Htask]; [assumption|]);
    destruct Htask.
Qed.

(** The constructor of a user class is the constructor of [HttpUser]
    followed by [_get_headers]. *)
Lemma init_of_user_class (cls : user_class) :
  In cls user_classes ->
  init cls = bind HttpUser___init__ (fun _ =>
               bind CardFraudUser__get_headers (fun headers =>
                 Ret {| headers := headers; client_verify := true |})).
Proof.
  intros Hcls. simpl in Hcls.
  destruct Hcls as [<-|[<-|[<-|[<-|[]]]]]; reflexivity.
Qed.

Lemma init_when_the_base_raises (cls : user_class) (w : world) (g : globals)
    (e : error) :
  In cls user_classes ->
  http_user_init w = Some e ->
  run w (init cls) g = (Raised e, g, []).
Proof.
  intros Hcls He. rewrite (init_of_user_class cls Hcls).
  unfold HttpUser___init__. cbn [bind run]. rewrite He. reflexivity.
Qed.

Lemma init_when_the_base_returns (cls : user_class) (w : world) (g : globals) :
  In cls user_classes ->
  http_user_init w = None ->
  run w (init cls) g =
    run w (bind CardFraudUser__get_headers (fun headers =>
             Ret {| headers := headers; client_verify := true |})) g.
Proof.
  intros Hcls He. rewrite (init_of_user_class cls Hcls).
  unfold HttpUser___init__. cbn [bind run]. rewrite He. reflexivity.
Qed.

Lemma init_without_auth (cls : user_class) (w : world) (g : globals) :
  NO_AUTH = true ->
  In cls user_classes ->
  http_user_init w = None ->
  run w (init cls) g =
    (Returned {| headers := {["Content-Type" := "application/json"]};
                 client_verify := true |}, g, []).
Proof.
  intros Hauth Hcls He. rewrite (init_when_the_base_returns cls w g Hcls He).
  unfold CardFraudUser__get_headers, _get_shared_token.
  rewrite Hauth. reflexivity.
Qed.

Lemma on_start_keeps_headers (cls : user_class) (self : user) :
  In cls user_classes -> headers (on_start cls self) = headers self.
Proof.
  intros Hcls. simpl in Hcls.
  destruct Hcls as [<-|[<-|[<-|[<-|[]]]]]; reflexivity.
Qed.

Lemma content_type_only :
  ({["Content-Type" := "application/json"]} : gmap string string)
    !! "Authorization" = None.
Proof. apply lookup_singleton_ne. discriminate. Qed.

(** C3: with NO_AUTH set, whatever else the environment holds,
    [_get_shared_token] returns [None] and sends nothing; the start hook,
    the stop hook and the request hook send no token request and no
    [Authorization] header; building a user of any class sends nothing, and
    either the constructor of [HttpUser] raises and there is no user, or the
    user is built without the header and none of its tasks sends one. *)
Theorem no_auth_sends_no_credentials (w : world) (g : globals) :
  NO_AUTH = true ->
  run w _get_shared_token g = (Returned VNone, g, []) /\
  (forall host, Forall no_credentials (snd (run w (on_test_start host) g))) /\
  Forall no_credentials (snd (run w on_test_stop g)) /\
  (forall name response_time,
     Forall no_credentials (snd (run w (on_request name response_time) g))) /\
  (forall cls, In cls user_classes ->
     Forall no_credentials (snd (run w (init cls) g)) /\
     (forall e, http_user_init w = Some e ->
        run w (init cls) g = (Raised e, g, [])) /\
     (http_user_init w = None ->
      exists self,
        run w (init cls) g = (Returned self, g, []) /\
        headers self !! "Authorization" = None /\
        forall weight task w' g',
          In (weight, task) (tasks cls) ->
          Forall no_credentials (snd (run w' (task (on_start cls self)) g')))).
Proof.
  intros Hauth.
  split; [unfold _get_shared_token; rewrite Hauth; reflexivity|].
  split.
  { intros host. unfold on_test_start, _get_shared_token. rewrite Hauth.
    answer_cases; each_event; split; try reflexivity; apply content_type_only. }
  split; [each_event|].
  split.
  { intros name response_time. unfold on_request.
    destruct (Qlt_le_dec 50 response_time); each_event. }
  intros cls Hcls. split; [|split].
  - destruct (http_user_init w) as [e|] eqn:He.
    + rewrite (init_when_the_base_raises cls w g e Hcls He). constructor.
    + rewrite (init_without_auth cls w g Hauth Hcls He). constructor.
  - intros e He. now apply init_when_the_base_raises.
  - intros He. eexists. split; [apply init_without_auth; assumption|].
    split; [apply content_type_only|].
    intros weight task w' g' Htask.
    eapply tasks_send_the_user_headers; [exact Hcls | exact Htask |].
    rewrite on_start_keeps_headers by assumption. apply content_type_only.
Qed.

(** ** The start hook *)

Lemma token_events_no_bulk_load (w : world) (g : globals) :
  bulk_loads (snd (run w _get_shared_token g)) = 0%nat.
Proof.
  unfold _get_shared_token.
  destruct NO_AUTH; [reflexivity|]. prog_simpl.
  destruct (is_not_None (_cached_token g)); [reflexivity|].
  destruct (all_set _); [|reflexivity].
  answer_cases; reflexivity.
Qed.

Lemma bulk_loads_app (t1 t2 : list event) :
  bulk_loads (t1 ++ t2) = (bulk_loads t1 + bulk_loads t2)%nat.
Proof. unfold bulk_loads. now rewrite List.filter_app, length_app. Qed.

Lemma second_call_returns_first (w : world) (g g1 : globals) (tok : pyval)
    (t1 : list event) :
  run w _get_shared_token g = (Returned tok, g1, t1) ->
  run w _get_shared_token g1 = (Returned tok, g1, []).
Proof.
  intros Hfirst. destruct NO_AUTH eqn:Hauth.
  - revert Hfirst. unfold _get_shared_token. rewrite Hauth.
    intros [= <- <- _]. reflexivity.
  - destruct (returned_token_is_cached w g g1 tok t1 Hauth Hfirst) as [Hc Hsome].
    rewrite cached_token_is_returned by (rewrite ?Hc; assumption).
    now rewrite Hc.
Qed.

Lemma prints_are_no_bulk_loads (t : list event) :
  Forall (fun e => is_print e = true) t -> bulk_loads t = 0%nat.
Proof.
  unfold bulk_loads. induction 1 as [|e t He _ IH]; [reflexivity|].
  destruct e; try discriminate He. exact IH.
Qed.

(** The report of a bulk load: up to three printed lines. *)
Ltac give_report :=
  first [ exists []; split; [reflexivity|]
        | eexists [_]; split; [reflexivity|]
        | eexists [_; _]; split; [reflexivity|]
        | eexists [_; _; _]; split; [reflexivity|] ].

Lemma start_hook_trace (w : world) (g g1 : globals) (host tok : pyval)
    (t1 : list event) :
  run w _get_shared_token g = (Returned tok, g1, t1) ->
  exists report,
    run w (on_test_start host) g =
      (Returned tt, g1,
       start_banner host ++ t1 ++
       EUrlopen RulesetBulkLoad (bulk_load_request tok) :: report ++
       [EPrint (repeat_char "=" 60)]) /\
    Forall (fun e => is_print e = true) report /\
    (~ is_json_object (urlopen_answer w RulesetBulkLoad (bulk_load_request tok)) ->
     exists msg, report = preload_warning msg).
Proof.
  intros Hfirst.
  pose proof (second_call_returns_first w g g1 tok t1 Hfirst) as Hsecond.
  assert (Hpre : run w (if negb NO_AUTH
                        then bind _get_shared_token (fun _ => Ret tt)
                        else Ret tt) g = (Returned tt, g1, t1)).
  { destruct NO_AUTH eqn:Hauth; simpl.
    - revert Hfirst. unfold _get_shared_token. rewrite Hauth.
      intros [= <- <- <-]. reflexivity.
    - rewrite run_bind, Hfirst. simpl. now rewrite app_nil_r. }
  unfold on_test_start, start_banner, bulk_load_request, is_json_object,
    preload_warning.
  cbv [mbind prog_bind mret prog_ret print].
  cbn [run emit bind app].
  rewrite !run_bind.
  replace (run w (if negb NO_AUTH then Print _ (Ret tt) else Ret tt) g)
    with (Returned tt, g,
          if NO_AUTH then []
          else [EPrint ("  Auth0: " +:+
                  (if negb (String.eqb AUTH0_DOMAIN "")
                   then upto 20 AUTH0_DOMAIN +:+ "..." else "Not configured"))])
    by (destruct NO_AUTH; reflexivity).
  cbn [run emit bind app]. rewrite !run_bind, Hpre.
  rewrite run_bind, run_try_except, run_bind, Hsecond.
  cbv [urlopen]. cbn [run emit bind app].
  destruct (urlopen_answer w RulesetBulkLoad _) as [e|[msg|[body [msg|result]]]] eqn:Hanswer;
    prog_simpl.
  4: destruct result; prog_simpl.
  all: destruct NO_AUTH; cbn [app]; rewrite ?app_nil_r.
  all: try (rewrite <- !app_assoc; cbn [app]).
  all: give_report.
  all: split; [each_event; reflexivity|].
  all: intros Hnot; try (eexists; reflexivity).
  all: exfalso; apply Hnot; eexists _, _; reflexivity.
Qed.

(** C9: when the credential is resolved (or auth is disabled), the start
    hook prints its banner, then sends exactly one bulk-load request, and
    returns normally whatever the answer is: a JSON object is reported, and
    any failure of the request is printed as a warning. *)
Theorem start_hook_preloads_rulesets (w : world) (g g1 : globals)
    (host tok : pyval) (t1 : list event) :
  run w _get_shared_token g = (Returned tok, g1, t1) ->
  exists report,
    run w (on_test_start host) g =
      (Returned tt, g1,
       start_banner host ++ t1 ++
       EUrlopen RulesetBulkLoad (bulk_load_request tok) :: report ++
       [EPrint (repeat_char "=" 60)]) /\
    bulk_loads (snd (run w (on_test_start host) g)) = 1%nat /\
    Forall (fun e => is_print e = true) report /\
    (~ is_json_object (urlopen_answer w RulesetBulkLoad (bulk_load_request tok)) ->
     exists msg, report = preload_warning msg).
Proof.
  intros Hfirst.
  destruct (start_hook_trace w g g1 host tok t1 Hfirst) as (report & Hrun & Hprints & Hwarn).
  exists report. repeat split; try assumption.
  rewrite Hrun. cbn [snd].
  change (EUrlopen RulesetBulkLoad (bulk_load_request tok) :: report ++
          [EPrint (repeat_char "=" 60)])
    with ([EUrlopen RulesetBulkLoad (bulk_load_request tok)] ++ report ++
          [EPrint (repeat_char "=" 60)]).
  rewrite !bulk_loads_app.
  pose proof (token_events_no_bulk_load w g) as Ht1. rewrite Hfirst in Ht1.
  cbn [snd] in Ht1. rewrite Ht1.
  rewrite (prints_are_no_bulk_loads report Hprints).
  rewrite (prints_are_no_bulk_loads (start_banner host)).
  - reflexivity.
  - unfold start_banner. destruct NO_AUTH; each_event; reflexivity.
Qed.

(** ** Callers that overlap *)

Lemma interleave_app {A} (w : world) (s1 s2 : list nat) (ths : list (thread A))
    (g : globals) :
  interleave w (s1 ++ s2) ths g =
  let '(ths1, g1, t1) := interleave w s1 ths g in
  let '(ths2, g2, t2) := interleave w s2 ths1 g1 in
  (ths2, g2, t1 ++ t2).
Proof.
  revert ths g. induction s1 as [|i s1 IH]; intros ths g; simpl.
  - destruct (interleave w s2 ths g) as [[ths2 g2] t2]. reflexivity.
  - destruct (turn w i ths g) as [[ths0 g0] t0]. rewrite IH.
    destruct (interleave w s1 ths0 g0) as [[ths1 g1] t1].
    destruct (interleave w s2 ths1 g1) as [[ths2 g2] t2].
    now rewrite app_assoc.
Qed.

Lemma first_turn_alone {A} (w : world) (n : nat) (p : prog A) (g : globals) :
  interleave w (replicate (S n) 0%nat) [Waiting p] g =
  let '(th, g1, t1) := run_segment w p g in
  let '(ths2, g2, t2) := interleave w (replicate n 0%nat) [th] g1 in
  (ths2, g2, t1 ++ t2).
Proof.
  cbn [replicate interleave]. unfold turn. simpl.
  destruct (run_segment w p g) as [[th g1] t1]. reflexivity.
Qed.

(** A thread that is alone and is scheduled often enough does what [run]
    does: the turns are the program cut at its blocking calls. *)
Lemma thread_alone_runs_to_the_end {A} (w : world) (p : prog A) (g : globals) :
  exists n,
    interleave w (replicate (S n) 0%nat) [Waiting p] g =
    ([Finished (fst (fst (run w p g)))], snd (fst (run w p g)), snd (run w p g)).
Proof.
  revert g.
  induction p as [a|c|e|l k IH|k IH|v k IH|s rq k IH|k IH|k IH|c k IH|k IH|m k IH];
    intros g.
  1-3: exists 0%nat; reflexivity.
  all: try (edestruct IH as [n Hn]; exists n; rewrite first_turn_alone in *;
            cbn [run_segment run]; exact Hn).
  1,4,5: destruct (IH g) as [n Hn]; exists n; rewrite first_turn_alone in *;
    cbn [run_segment run]; destruct (run_segment w k g) as [[th g1] t1];
    destruct (interleave w _ [th] g1) as [[ths2 g2] t2];
    destruct (run w k g) as [[o g3] t3]; simpl in *; congruence.
  - destruct (IH (urlopen_answer w s rq) g) as [n Hn]. exists (S n).
    rewrite first_turn_alone. cbn [run_segment run]. rewrite Hn.
    destruct (run w _ g) as [[o g3] t3]. reflexivity.
  - destruct (IH (target_answer w c) g) as [n Hn]. exists (S n).
    rewrite first_turn_alone. cbn [run_segment run]. rewrite Hn.
    destruct (run w _ g) as [[o g3] t3]. reflexivity.
Qed.

Lemma none_exited_insert {A} (ths : list (thread A)) (i : nat) (q : thread A) :
  existsb has_exited ths = false -> has_exited q = false ->
  existsb has_exited (<[i := q]> ths) = false.
Proof.
  revert i. induction ths as [|th ths IH]; intros i; simpl; [auto|].
  intros [Hth Hths]%orb_false_elim Hq.
  destruct i as [|i]; simpl.
  - rewrite Hq. exact Hths.
  - rewrite Hth. simpl. auto.
Qed.

(** Distinct threads that all wait to run [p] take one turn each; a turn of
    [p] always leaves the thread as [q], maps the globals by [f] and emits
    [ev], in states that satisfy [inv]. *)
Lemma one_turn_each {A} (w : world) (p : prog A) (q : thread A)
    (f : globals -> globals) (ev : list event) (inv : globals -> Prop) :
  (forall g, inv g -> run_segment w p g = (q, f g, ev) /\ inv (f g)) ->
  has_exited q = false ->
  forall (order : list nat) (ths : list (thread A)) (g : globals),
    NoDup order ->
    (forall i, i ∈ order -> ths !! i = Some (Waiting p)) ->
    existsb has_exited ths = false ->
    inv g ->
    exists ths',
      interleave w order ths g =
        (ths', Nat.iter (length order) f g, concat (replicate (length order) ev)) /\
      length ths' = length ths /\
      (forall i, i ∈ order -> ths' !! i = Some q) /\
      (forall i, i ∉ order -> ths' !! i = ths !! i) /\
      existsb has_exited ths' = false /\
      inv (Nat.iter (length order) f g).
Proof.
  intros Hp Hq order. induction order as [|i order IH]; intros ths g Hnd Hwait Halive Hg.
  - exists ths. simpl. repeat split; auto. intros i Hi. inversion Hi.
  - apply NoDup_cons in Hnd as [Hi Hnd].
    destruct (Hp g Hg) as [Hrun Hfg].
    assert (Hlt : (i < length ths)%nat).
    { eapply lookup_lt_Some. apply Hwait. left. }
    destruct (IH (<[i := q]> ths) (f g)) as (ths' & Hrest & Hlen & Hin & Hout & Hal & Hinv).
    + assumption.
    + intros j Hj. rewrite list_lookup_insert_ne by (intros ->; contradiction).
      apply Hwait. now right.
    + now apply none_exited_insert.
    + assumption.
    + exists ths'. cbn [interleave length replicate concat].
      rewrite Nat.iter_succ_r. unfold turn. rewrite Halive, (Hwait i) by left.
      rewrite Hrun, Hrest.
      repeat split.
      * now rewrite Hlen, length_insert.
      * intros j [->|Hj]%elem_of_cons; [|auto].
        rewrite Hout by assumption. now apply list_lookup_insert_eq.
      * intros j [Hne Hj]%not_elem_of_cons. rewrite Hout by assumption.
        now apply list_lookup_insert_ne.
      * assumption.
      * assumption.
Qed.

Lemma token_requests_app (t1 t2 : list event) :
  token_requests (t1 ++ t2) = (token_requests t1 + token_requests t2)%nat.
Proof. unfold token_requests. now rewrite List.filter_app, length_app. Qed.

Lemma token_requests_repeated (n : nat) (ev : list event) :
  token_requests (concat (replicate n ev)) = (n * token_requests ev)%nat.
Proof.
  induction n as [|n IH]; simpl; [reflexivity|].
  now rewrite token_requests_app, IH.
Qed.

(** A call that finds the cache empty runs in two turns: the first sends
    the token request, the second, resumed with an answer that carries a
    token, prints, writes the cache and returns the token. *)
Lemma token_call_two_turns (w : world) (tok : pyval) :
  NO_AUTH = false ->
  all_set [AUTH0_DOMAIN; AUTH0_CLIENT_ID; AUTH0_CLIENT_SECRET; AUTH0_AUDIENCE] = true ->
  carries_token (urlopen_answer w IdentityEndpoint token_request) tok ->
  exists resume line,
    (forall g, _cached_token g = VNone ->
       run_segment w _get_shared_token g =
         (Waiting resume, g, [EUrlopen IdentityEndpoint token_request])) /\
    (forall g,
       run_segment w resume g =
         (Finished (Returned tok),
          {| _cached_token := tok; rng_cursor := rng_cursor g |}, [EPrint line])).
Proof.
  intros Hauth Hset (body & items & Hanswer & Htok & Htruthy).
  eexists _, _. split.
  - intros g Hc. unfold _get_shared_token. rewrite Hauth.
    cbv [mbind prog_bind mret prog_ret get_cached_token urlopen].
    cbn [run_segment bind try_except]. rewrite Hc. cbn [is_not_None].
    rewrite Hset. cbn [negb run_segment bind try_except]. reflexivity.
  - intros g. fold token_request. rewrite Hanswer.
    cbv [mbind prog_bind mret prog_ret decode json_loads dict_get print
         set_cached_token loads].
    cbn [bind try_except]. rewrite Htok, Htruthy.
    cbn [bind try_except run_segment]. reflexivity.
Qed.

Lemma waiting_threads_alive {A} (n : nat) (p : prog A) :
  existsb has_exited (replicate n (Waiting p)) = false.
Proof. induction n as [|n IH]; simpl; auto. Qed.

Lemma iter_same {A} (n : nat) (x : A) : Nat.iter n (fun y => y) x = x.
Proof. induction n as [|n IH]; simpl; auto. Qed.

(** The general form of the race: [n] callers that all start before any
    answer arrives find the cache empty, so each of them sends its own token
    request; resumed in any order with an answer that carries the token, each
    returns that token.  [n] requests are sent, not one. *)
Lemma overlapping_callers_each_fetch (w : world) (g : globals) (tok : pyval)
    (n : nat) (starts finishes : list nat) :
  NO_AUTH = false ->
  all_set [AUTH0_DOMAIN; AUTH0_CLIENT_ID; AUTH0_CLIENT_SECRET; AUTH0_AUDIENCE] = true ->
  carries_token (urlopen_answer w IdentityEndpoint token_request) tok ->
  _cached_token g = VNone ->
  starts ≡ₚ seq 0 n ->
  finishes ≡ₚ seq 0 n ->
  exists g' t,
    interleave w (starts ++ finishes)
      (replicate n (Waiting _get_shared_token)) g =
      (replicate n (Finished (Returned tok)), g', t) /\
    token_requests t = n.
Proof.
  intros Hauth Hset Hanswer Hc Hstarts Hfinishes.
  destruct (token_call_two_turns w tok Hauth Hset Hanswer)
    as (resume & line & Hfirst & Hsecond).
  assert (Hmem : forall order i, order ≡ₚ seq 0 n -> i ∈ order <-> (i < n)%nat).
  { intros order i ->. rewrite elem_of_seq. lia. }
  assert (Hnd : forall order, order ≡ₚ seq 0 n -> NoDup order).
  { intros order ->. apply NoDup_seq. }
  assert (Hlen : forall order, order ≡ₚ seq 0 n -> length order = n).
  { intros order ->. apply length_seq. }
  destruct (one_turn_each w _get_shared_token (Waiting resume) (fun g => g)
              [EUrlopen IdentityEndpoint token_request]
              (fun g => _cached_token g = VNone))
    with (order := starts) (ths := replicate n (Waiting _get_shared_token)) (g := g)
    as (ths1 & Hrun1 & Hlen1 & Hin1 & _ & Halive1 & _); auto.
  { intros i Hi. apply lookup_replicate_2. now apply (Hmem starts). }
  { apply waiting_threads_alive. }
  destruct (one_turn_each w resume (Finished (Returned tok))
              (fun g => {| _cached_token := tok; rng_cursor := rng_cursor g |})
              [EPrint line] (fun _ => True))
    with (order := finishes) (ths := ths1) (g := g)
    as (ths2 & Hrun2 & Hlen2 & Hin2 & _ & _ & _); auto.
  { intros i Hi. apply Hin1. apply (Hmem starts); [assumption|].
    now apply (Hmem finishes). }
  rewrite iter_same in Hrun1.
  eexists _, _. rewrite interleave_app, Hrun1, Hrun2. split.
  - f_equal. f_equal. apply list_eq. intros i.
    destruct (decide (i < n)%nat) as [Hi|Hi].
    + rewrite Hin2 by (now apply (Hmem finishes)).
      symmetry. now apply lookup_replicate_2.
    + rewrite !lookup_ge_None_2; [reflexivity | |].
      * rewrite length_replicate. lia.
      * rewrite Hlen2, Hlen1, length_replicate. lia.
  - rewrite token_requests_app, !token_requests_repeated.
    rewrite (Hlen starts), (Hlen finishes) by assumption.
    unfold token_requests. simpl. lia.
Qed.

(** ** The user classes *)

(** C8, as the code has it: four user classes; the standard, high-volume
    and velocity classes share constructor and [on_start] and differ in pacing
    and task mix, and each of their tasks posts a generated payload to its
    endpoint and hands the response to [_handle_response]; the steady-state
    class is a class of its own, whose one task posts an AUTH payload and
    looks at no response, and whose [on_start] changes nothing. *)
Theorem user_classes_and_their_tasks :
  map class_name user_classes =
    ["CardFraudUser"; "HighVolumeUser"; "VelocityTestUser"; "SteadyStateUser"] /\
  map wait_time user_classes =
    [between 10 50; between 1 5; between 100 200; constant (1 # 10)] /\
  map (fun cls => map fst (tasks cls)) user_classes =
    [[7; 3]; [7; 3]; [7; 3; 1]; [1]]%nat /\
  (forall cls weight task self w g,
     In cls [CardFraudUser; HighVolumeUser; VelocityTestUser] ->
     In (weight, task) (tasks cls) ->
     init cls = CardFraudUser___init__ /\
     client_verify (on_start cls self) = false /\
     exists c g' eval_type,
       run w (task self) g =
         emit (EPost c)
           (run w (CardFraudUser__handle_response (target_answer w c) eval_type) g') /\
       pc_headers c = headers self /\
       pc_catch_response c = true /\
       ((pc_path c = "/v1/evaluate/auth" /\ exists p, pc_json c = AuthPayload p) \/
        (pc_path c = "/v1/evaluate/monitoring" /\
         exists p, pc_json c = MonitoringPayload p))) /\
  tasks SteadyStateUser = [(1%nat, SteadyStateUser_AUTH_only)] /\
  (forall self w g,
     on_start SteadyStateUser self = self /\
     exists c g',
       run w (SteadyStateUser_AUTH_only self) g = (Returned tt, g', [EPost c]) /\
       pc_headers c = headers self /\
       pc_catch_response c = false /\
       pc_path c = "/v1/evaluate/auth" /\ exists p, pc_json c = AuthPayload p).
Proof.
  split; [reflexivity|]. split; [reflexivity|]. split; [reflexivity|].
  split; [|split; [reflexivity|]].
  - intros cls weight task self w g Hcls Htask.
    assert (Htasks : task = CardFraudUser_AUTH_evaluation \/
                     task = CardFraudUser_MONITORING_evaluation \/
                     task = VelocityTestUser_velocity_burst).
    { simpl in Hcls. destruct Hcls as [<-|[<-|[<-|[]]]]; simpl in Htask;
        repeat (destruct Htask as [[= <- <-]|Htask]; [tauto|]); destruct Htask. }
    split; [|split].
    + simpl in Hcls. destruct Hcls as [<-|[<-|[<-|[]]]]; reflexivity.
    + simpl in Hcls. destruct Hcls as [<-|[<-|[<-|[]]]]; reflexivity.
    + destruct Htasks as [-> | [-> | ->]].
      * unfold CardFraudUser_AUTH_evaluation.
        through_generator generate_AUTH_request_in_range.
        eexists _, _, _. split; [reflexivity|]. simpl. eauto 8.
      * unfold CardFraudUser_MONITORING_evaluation.
        through_generator generate_MONITORING_request_in_range.
        eexists _, _, _. split; [reflexivity|]. simpl. eauto 8.
      * unfold VelocityTestUser_velocity_burst.
        through_generator generate_velocity_burst_request_in_range.
        eexists _, _, _. split; [reflexivity|]. simpl. eauto 8.
  - intros self w g. split; [reflexivity|].
    unfold SteadyStateUser_AUTH_only.
    through_generator generate_AUTH_request_in_range.
    eexists _, _. split; [reflexivity|]. simpl. eauto 8.
Qed.

(** ** More on the shared token *)

(** X1: a call of [_get_shared_token] never clears or replaces a token
    that is cached: a cache that holds a token is left as it is, and an empty
    cache stays empty unless the call returns, and then it holds the truthy
    token that was returned. *)
Theorem token_cache_only_fills (w : world) (g : globals) :
  (is_not_None (_cached_token g) = true ->
   snd (fst (run w _get_shared_token g)) = g) /\
  (_cached_token g = VNone ->
   _cached_token (snd (fst (run w _get_shared_token g))) = VNone \/
   (truthy (_cached_token (snd (fst (run w _get_shared_token g)))) = true /\
    fst (fst (run w _get_shared_token g)) =
      Returned (_cached_token (snd (fst (run w _get_shared_token g)))))).
Proof.
  unfold _get_shared_token. destruct NO_AUTH; [simpl; auto|].
  prog_simpl. split.
  - intros Hc. rewrite Hc. reflexivity.
  - intros Hc. rewrite Hc. prog_simpl.
    destruct (all_set _); prog_simpl; [|auto].
    answer_cases; simpl; auto.
Qed.

(** X2: what one call of [_get_shared_token] can do at most: it sends at
    most one request to the identity endpoint and none to the target, it
    records no verdict, and it exits with status 1 if it exits. *)
Theorem token_call_limits (w : world) (g : globals) :
  (token_requests (snd (run w _get_shared_token g)) <= 1)%nat /\
  Forall (fun e => is_print e = true \/ is_token_request e = true)
    (snd (run w _get_shared_token g)) /\
  (forall code, fst (fst (run w _get_shared_token g)) = Exited code -> code = 1).
Proof.
  unfold _get_shared_token. destruct NO_AUTH; prog_simpl;
    [|destruct (is_not_None (_cached_token g)); prog_simpl;
      [|destruct (all_set _); prog_simpl; [answer_cases|]]].
  all: simpl; repeat split;
    [ unfold token_requests; simpl; lia
    | each_event; auto
    | intros ? H; inversion H; reflexivity ].
Qed.

(** X3: the first fetch that succeeds sends the token request, prints one
    line and stores the token; the line shows the [expires_in] of the answer,
    and [unknown] when the answer has none. *)
Theorem first_fetch_stores_the_token (w : world) (g : globals) (body : string)
    (items : list (string * pyval)) (tok : pyval) :
  NO_AUTH = false ->
  _cached_token g = VNone ->
  all_set [AUTH0_DOMAIN; AUTH0_CLIENT_ID; AUTH0_CLIENT_SECRET; AUTH0_AUDIENCE] = true ->
  urlopen_answer w IdentityEndpoint token_request =
    inr (inr {| chars := body; loads := inr (VDict items) |}) ->
  assoc "access_token" items = Some tok ->
  truthy tok = true ->
  run w _get_shared_token g =
    (Returned tok,
     {| _cached_token := tok; rng_cursor := rng_cursor g |},
     [EUrlopen IdentityEndpoint token_request;
      EPrint ("Auth0 token cached (expires in " +:+
              py_str (match assoc "expires_in" items with
                      | Some v => v
                      | None => VStr "unknown"
                      end) +:+ "s) - shared by all users")]).
Proof.
  intros Hauth Hc Hset Hanswer Htok Htruthy.
  unfold _get_shared_token. rewrite Hauth. prog_simpl. rewrite Hc, Hset.
  prog_simpl. fold token_request. rewrite Hanswer. prog_simpl.
  cbn [loads]. prog_simpl. rewrite Htok, Htruthy. reflexivity.
Qed.

(** X4: an [access_token] that is missing or falsy (empty string, zero,
    null, false, empty list or object) is refused: the call prints the
    error and exits with status 1, and the cache stays empty. *)
Theorem falsy_token_is_refused (w : world) (g : globals) (body : string)
    (items : list (string * pyval)) :
  NO_AUTH = false ->
  _cached_token g = VNone ->
  all_set [AUTH0_DOMAIN; AUTH0_CLIENT_ID; AUTH0_CLIENT_SECRET; AUTH0_AUDIENCE] = true ->
  urlopen_answer w IdentityEndpoint token_request =
    inr (inr {| chars := body; loads := inr (VDict items) |}) ->
  truthy (match assoc "access_token" items with Some v => v | None => VNone end)
    = false ->
  run w _get_shared_token g =
    (Exited 1, g,
     [EUrlopen IdentityEndpoint token_request;
      EPrint "ERROR: No access_token in Auth0 response"]).
Proof.
  intros Hauth Hc Hset Hanswer Hfalsy.
  unfold _get_shared_token. rewrite Hauth. prog_simpl. rewrite Hc, Hset.
  prog_simpl. fold token_request. rewrite Hanswer. prog_simpl.
  cbn [loads]. prog_simpl. rewrite Hfalsy. reflexivity.
Qed.

(** X5: with auth enabled and no token cached, one Auth0 variable that is
    unset or set to the empty string is enough for the call to print the
    three lines of the configuration warning and exit with status 1 before
    any request is sent. *)
Theorem unset_or_empty_variable_exits (w : world) (g : globals) (name : string) :
  NO_AUTH = false ->
  _cached_token g = VNone ->
  In name ["AUTH0_DOMAIN"; "AUTH0_CLIENT_ID"; "AUTH0_CLIENT_SECRET"; "AUTH0_AUDIENCE"] ->
  environ !! name = None \/ environ !! name = Some "" ->
  run w _get_shared_token g =
    (Exited 1, g,
     [EPrint "WARNING: Auth0 env vars not set and NO_AUTH is not true.";
      EPrint "  Set NO_AUTH=true for no-auth mode, or provide Auth0 credentials.";
      EPrint "  Required: AUTH0_DOMAIN, AUTH0_CLIENT_ID, AUTH0_CLIENT_SECRET, AUTH0_AUDIENCE"]).
Proof.
  intros Hauth Hc Hname Hvalue.
  apply missing_configuration_exits; try assumption.
  assert (Hempty : os_environ_get name "" = "").
  { unfold os_environ_get. destruct Hvalue as [-> | ->]; reflexivity. }
  unfold all_set, AUTH0_DOMAIN, AUTH0_CLIENT_ID, AUTH0_CLIENT_SECRET, AUTH0_AUDIENCE.
  cbn [forallb]. simpl in Hname.
  destruct Hname as [<-|[<-|[<-|[<-|[]]]]]; rewrite Hempty; cbn [String.eqb negb andb];
    rewrite ?andb_false_r; reflexivity.
Qed.

(** ** More on the response classifier *)

Lemma upto_length_min (n : nat) (s : string) :
  String.length (upto n s) = Nat.min n (String.length s).
Proof.
  unfold upto. revert s. induction n as [|n IH]; intros [|c s]; simpl; auto.
Qed.

Lemma upto_is_prefix (n : nat) (s : string) : String.prefix (upto n s) s = true.
Proof.
  unfold upto. revert s. induction n as [|n IH]; intros [|c s]; simpl; auto.
  destruct (ascii_dec c c); [apply IH | congruence].
Qed.

(** X8: when the status is not 200, or [json()] gives an object or raises
    [JSONDecodeError], the classifier records exactly one verdict and
    returns, with the globals untouched and nothing sent; when on a 200
    [json()] raises another exception (a [ValueError] on an integer of more
    than 4300 digits, a [RecursionError]), the [except] clause does not catch
    it: the exception leaves the classifier and no verdict is recorded. *)
Theorem one_verdict_per_response (w : world) (g : globals)
    (response : http_response) (eval_type : string) :
  (status_code response <> 200 \/
   (exists msg, json response = inl (JSONDecodeError msg)) \/
   (exists items, json response = inr (VDict items)) ->
   exists mark,
     run w (CardFraudUser__handle_response response eval_type) g =
       (Returned tt, g, [mark]) /\ is_mark mark = true) /\
  (forall e,
     status_code response = 200 ->
     json response = inl e ->
     (forall msg, e <> JSONDecodeError msg) ->
     run w (CardFraudUser__handle_response response eval_type) g =
       (Raised e, g, [])).
Proof.
  unfold CardFraudUser__handle_response. split.
  - intros Hcase.
    destruct (status_code response =? 200) eqn:Hs;
      [|destruct (status_code response =? 401);
        [|destruct (status_code response =? 403)]].
    2-4: eexists; split; reflexivity.
    apply Z.eqb_eq in Hs.
    destruct Hcase as [Hne | [[msg Hj] | [items Hj]]]; [contradiction | |];
      unfold response_json; rewrite Hj; prog_simpl.
    + eexists; split; reflexivity.
    + answer_cases; eexists; split; reflexivity.
  - intros e Hs Hj Hno. rewrite Hs. cbn [Z.eqb Pos.eqb].
    unfold response_json. rewrite Hj.
    destruct e; try reflexivity. now destruct (Hno msg).
Qed.

(** X9: for a status other than 200, 401 and 403 the failure message is
    [Status], the status and a prefix of the response text of at most 100
    characters: the whole text when it is not longer. *)
Theorem failure_message_is_truncated (w : world) (g : globals)
    (response : http_response) (eval_type : string) :
  status_code response <> 200 ->
  status_code response <> 401 ->
  status_code response <> 403 ->
  exists shown,
    run w (CardFraudUser__handle_response response eval_type) g =
      (Returned tt, g,
       [EFailure ("Status " +:+ pretty (status_code response) +:+ ": " +:+ shown)]) /\
    String.length shown = Nat.min 100 (String.length (text response)) /\
    String.prefix shown (text response) = true.
Proof.
  intros H200 H401 H403. exists (upto 100 (text response)).
  split; [|split; [apply upto_length_min | apply upto_is_prefix]].
  unfold CardFraudUser__handle_response.
  apply Z.eqb_neq in H200, H401, H403. rewrite H200, H401, H403. reflexivity.
Qed.

(** ** More on the request generators *)

(** X11: the network label of an AUTH payload names the list its bin was
    taken from: VISA for a bin of [visa_bins], MASTERCARD for one of
    [mc_bins], AMEX for one of [amex_bins]. *)
Theorem network_names_the_bin_family (w : world) (g : globals) :
  exists p g',
    run w generate_AUTH_request g = (Returned p, g', []) /\
    ((In (card_bin p) visa_bins /\ card_network p = "VISA") \/
     (In (card_bin p) mc_bins /\ card_network p = "MASTERCARD") \/
     (In (card_bin p) amex_bins /\ card_network p = "AMEX")).
Proof.
  destruct (generate_AUTH_request_in_range w g) as (p & g' & Hrun & _ & Hf & Hnet).
  exists p, g'. split; [exact Hrun|].
  assert (Hbin : In (card_bin p) (visa_bins ++ mc_bins ++ amex_bins)) by apply Hf.
  unfold network_matches in Hnet. rewrite Hnet. simpl in Hbin.
  repeat (destruct Hbin as [<- | Hbin];
          [simpl; first [ left; split; [tauto | reflexivity]
                        | right; left; split; [tauto | reflexivity]
                        | right; right; split; [tauto | reflexivity] ] |]).
  destruct Hbin.
Qed.

Lemma velocity_card_not_in_pool (h : string) :
  In h CARD_HASHES -> h <> "velocity_test_card".
Proof.
  assert (Hall : forallb (fun c => negb (String.eqb c "velocity_test_card"))
                   CARD_HASHES = true) by (vm_compute; reflexivity).
  intros Hin ->. rewrite forallb_forall in Hall.
  specialize (Hall _ Hin). discriminate Hall.
Qed.

(** X12: the card of the velocity burst is not a card of the pool: an AUTH
    or MONITORING payload never has the hash [velocity_test_card], and a
    velocity-burst payload always has it. *)
Theorem velocity_card_is_set_apart (w : world) (g : globals) :
  (exists p g',
     run w generate_AUTH_request g = (Returned p, g', []) /\
     card_hash p <> "velocity_test_card") /\
  (exists p g',
     run w generate_MONITORING_request g = (Returned p, g', []) /\
     m_card_hash p <> "velocity_test_card") /\
  (exists p g',
     run w generate_velocity_burst_request g = (Returned p, g', []) /\
     card_hash p = "velocity_test_card").
Proof.
  split; [|split].
  - destruct (generate_AUTH_request_in_range w g) as (p & g' & Hrun & _ & Hf & _).
    exists p, g'. split; [exact Hrun|]. apply velocity_card_not_in_pool, Hf.
  - destruct (generate_MONITORING_request_in_range w g) as (p & g' & Hrun & _ & Hf).
    exists p, g'. split; [exact Hrun|]. apply velocity_card_not_in_pool, Hf.
  - destruct (generate_velocity_burst_request_in_range w g)
      as (p & g' & Hrun & _ & Hf & _).
    exists p, g'. split; [exact Hrun|].
    destruct Hf as (_ & [Hhash | []] & _). now symmetry.
Qed.

Lemma append_cons (c : ascii) (s1 s2 : string) :
  String c s1 +:+ s2 = String c (s1 +:+ s2).
Proof. reflexivity. Qed.

Lemma append_assoc (s1 s2 s3 : string) : (s1 +:+ s2) +:+ s3 = s1 +:+ (s2 +:+ s3).
Proof.
  induction s1 as [|c s1 IH]; [reflexivity|].
  rewrite !append_cons. f_equal. exact IH.
Qed.

Lemma append_empty_r (s : string) : s +:+ "" = s.
Proof.
  induction s as [|c s IH]; [reflexivity|].
  rewrite append_cons. f_equal. exact IH.
Qed.

Lemma upto_append (s1 s2 : string) : upto (String.length s1) (s1 +:+ s2) = s1.
Proof.
  unfold upto. induction s1 as [|c s1 IH].
  - destruct s2; reflexivity.
  - rewrite append_cons. cbn [String.length substring]. f_equal. exact IH.
Qed.

(** The digits of a number: the high ones followed by the low ones. *)
Lemma hex_fixed_split (high low : nat) (n : N) :
  hex_fixed (high + low) n =
  hex_fixed high (n / 16 ^ N.of_nat low) +:+ hex_fixed low n.
Proof.
  revert n. induction low as [|low IH]; intros n.
  - rewrite Nat.add_0_r. simpl. now rewrite N.div_1_r, append_empty_r.
  - rewrite Nat.add_succ_r. cbn [hex_fixed]. rewrite IH, append_assoc.
    rewrite N.Div0.div_div.
    now rewrite Nat2N.inj_succ, N.pow_succ_r'.
Qed.

(** The version of a [uuid4]: bits 76 to 79 hold the number 4. *)
Lemma uuid4_version (r : N) :
  ((N.lor (N.ldiff (N.lor (N.ldiff (r mod 2 ^ 128) (N.shiftl 0xc000 48))
                      (N.shiftl 0x8000 48))
             (N.shiftl 0xf000 64))
      (N.shiftl 4 76) / 16 ^ 16 / 16 ^ 3) mod 16 = 4)%N.
Proof.
  rewrite N.Div0.div_div.
  change (16 ^ 16 * 16 ^ 3)%N with (2 ^ 76)%N. change 16%N with (2 ^ 4)%N.
  rewrite <- N.shiftr_div_pow2, <- N.land_ones.
  apply N.bits_inj. intros n.
  rewrite N.land_spec, N.shiftr_spec', N.lor_spec, N.ldiff_spec.
  destruct (N.lt_ge_cases n 4%N) as [Hn | Hn].
  - assert (Hcases : (n = 0 \/ n = 1 \/ n = 2 \/ n = 3)%N) by lia.
    destruct Hcases as [-> | [-> | [-> | ->]]];
      match goal with
      | |- context [N.testbit (N.shiftl 61440 64) ?k] =>
          change (N.testbit (N.shiftl 61440 64) k) with true
      end;
      rewrite andb_false_r; reflexivity.
  - rewrite (N.ones_spec_high 4 n) by assumption. rewrite andb_false_r.
    symmetry. change 4%N with (2 ^ 2)%N. rewrite N.pow2_bits_eqb.
    apply N.eqb_neq. lia.
Qed.

(** X13: a transaction id is [txn-], twelve hexadecimal digits, the digit
    4 and three more hexadecimal digits: the sixteen digits kept of the
    UUID include its version, so sixty of their bits are random. *)
Theorem transaction_id_holds_the_version (w : world) (g : globals) :
  exists a b g',
    run w generate_transaction_id g =
      (Returned ("txn-" +:+ a +:+ "4" +:+ b), g', []) /\
    String.length a = 12%nat /\ String.length b = 3%nat /\
    hex_string a = true /\ hex_string b = true.
Proof.
  unfold generate_transaction_id, uuid4, mbind, prog_bind, mret, prog_ret.
  cbn [bind run]. unfold uuid_hex.
  set (u := N.lor _ (N.shiftl 4 76)).
  assert (Hdigits : upto 16 (hex_fixed 32 u) =
                    hex_fixed 12 (u / 16 ^ 16 / 16 ^ 4) +:+ "4" +:+
                    hex_fixed 3 (u / 16 ^ 16)).
  { change (hex_fixed 32 u) with (hex_fixed (16 + 16) u).
    rewrite hex_fixed_split.
    rewrite <- (hex_fixed_length 16 (u / 16 ^ N.of_nat 16)) at 1.
    rewrite upto_append.
    change (hex_fixed 16 (u / 16 ^ N.of_nat 16))
      with (hex_fixed (12 + 4) (u / 16 ^ 16)).
    rewrite hex_fixed_split.
    change (hex_fixed 4 (u / 16 ^ 16)) with (hex_fixed (1 + 3) (u / 16 ^ 16)).
    rewrite hex_fixed_split.
    change (hex_fixed 1 (u / 16 ^ 16 / 16 ^ N.of_nat 3))
      with (String (hex_digit ((u / 16 ^ 16 / 16 ^ 3) mod 16)) "").
    subst u. rewrite uuid4_version. reflexivity. }
  rewrite Hdigits.
  eexists _, _, _. split; [reflexivity|].
  rewrite !hex_fixed_length, !hex_fixed_hex. auto.
Qed.

(** ** More on the users and the hooks *)

(** X14: building a user of any class first runs the constructor of
    [HttpUser]; when that raises, the exception leaves the constructor and no
    token is asked for; when it returns, the constructor makes one call of
    [_get_shared_token]: it exits or raises as the call does, and for a token
    that is returned the user gets [Content-Type] and, when the token is
    truthy, [Authorization: Bearer] followed by the token. *)
Theorem user_construction_follows_the_token_call (cls : user_class) (w : world)
    (g g1 : globals) (t1 : list event) :
  In cls user_classes ->
  (forall e, http_user_init w = Some e ->
     run w (init cls) g = (Raised e, g, [])) /\
  (http_user_init w = None ->
   (forall tok,
      run w _get_shared_token g = (Returned tok, g1, t1) ->
      run w (init cls) g =
        (Returned
           {| headers :=
                if truthy tok
                then <["Authorization" := "Bearer " +:+ py_str tok]>
                       {["Content-Type" := "application/json"]}
                else {["Content-Type" := "application/json"]};
              client_verify := true |}, g1, t1)) /\
   (forall code,
      run w _get_shared_token g = (Exited code, g1, t1) ->
      run w (init cls) g = (Exited code, g1, t1)) /\
   (forall e,
      run w _get_shared_token g = (Raised e, g1, t1) ->
      run w (init cls) g = (Raised e, g1, t1))).
Proof.
  intros Hcls. split.
  { intros e He. now apply init_when_the_base_raises. }
  intros He. rewrite (init_when_the_base_returns cls w g Hcls He).
  repeat split; intros x Hrun;
    unfold CardFraudUser__get_headers, mbind, prog_bind;
    rewrite !run_bind, Hrun; try reflexivity;
    destruct (truthy x); unfold mret, prog_ret; cbn [run];
    rewrite !app_nil_r; reflexivity.
Qed.

Lemma classifier_trace (w : world) (g : globals) (response : http_response)
    (eval_type : string) :
  Forall (fun e => is_mark e = true)
    (snd (run w (CardFraudUser__handle_response response eval_type) g)) /\
  (length (snd (run w (CardFraudUser__handle_response response eval_type) g)) <= 1)%nat.
Proof.
  unfold CardFraudUser__handle_response.
  destruct (status_code response =? 200);
    [|destruct (status_code response =? 401);
      [|destruct (status_code response =? 403)]];
    answer_cases; split; simpl; try lia; each_event; reflexivity.
Qed.

(** X15: a task of any user class sends exactly one request to the target,
    with the headers the user was built with, and after it records at most
    one verdict; the token is not read again. *)
Theorem tasks_post_once_with_the_user_headers (cls : user_class) (weight : nat)
    (task : user -> prog unit) (self : user) (w : world) (g : globals) :
  In cls user_classes ->
  In (weight, task) (tasks cls) ->
  exists c verdicts,
    snd (run w (task self) g) = EPost c :: verdicts /\
    pc_headers c = headers self /\
    Forall (fun e => is_mark e = true) verdicts /\
    (length verdicts <= 1)%nat /\
    _cached_token (snd (fst (run w (task self) g))) = _cached_token g.
Proof.
  intros Hcls Htask.
  assert (Htasks : task = CardFraudUser_AUTH_evaluation \/
                   task = CardFraudUser_MONITORING_evaluation \/
                   task = VelocityTestUser_velocity_burst \/
                   task = SteadyStateUser_AUTH_only).
  { simpl in Hcls. destruct Hcls as [<-|[<-|[<-|[<-|[]]]]]; simpl in Htask;
      repeat (destruct Htask as [[= <- <-]|Htask]; [tauto|]); destruct Htask. }
  assert (Hkeep : forall (r : http_response) ty g0,
             _cached_token
               (snd (fst (run w (CardFraudUser__handle_response r ty) g0))) =
             _cached_token g0).
  { intros r ty g0. unfold CardFraudUser__handle_response.
    destruct (status_code r =? 200);
      [|destruct (status_code r =? 401); [|destruct (status_code r =? 403)]];
      answer_cases; reflexivity. }
  destruct Htasks as [-> | [-> | [-> | ->]]].
  - unfold CardFraudUser_AUTH_evaluation.
    destruct (generate_AUTH_request_in_range w g) as (p & g' & Hrun & Hc & _).
    unfold mbind, prog_bind. rewrite run_bind, Hrun. cbn [client_post bind run].
    pose proof (classifier_trace w g' (target_answer w
      {| pc_path := "/v1/evaluate/auth"; pc_json := AuthPayload p;
         pc_headers := headers self; pc_catch_response := true;
         pc_name := Some "/v1/evaluate/auth" |}) "AUTH") as [Hm Hl].
    specialize (Hkeep (target_answer w
      {| pc_path := "/v1/evaluate/auth"; pc_json := AuthPayload p;
         pc_headers := headers self; pc_catch_response := true;
         pc_name := Some "/v1/evaluate/auth" |}) "AUTH" g').
    destruct (run w (CardFraudUser__handle_response _ "AUTH") g') as [[o g2] t2].
    simpl in *. eexists _, _. repeat split; try eassumption; congruence.
  - unfold CardFraudUser_MONITORING_evaluation.
    destruct (generate_MONITORING_request_in_range w g) as (p & g' & Hrun & Hc & _).
    unfold mbind, prog_bind. rewrite run_bind, Hrun. cbn [client_post bind run].
    pose proof (classifier_trace w g' (target_answer w
      {| pc_path := "/v1/evaluate/monitoring"; pc_json := MonitoringPayload p;
         pc_headers := headers self; pc_catch_response := true;
         pc_name := Some "/v1/evaluate/monitoring" |}) "MONITORING") as [Hm Hl].
    specialize (Hkeep (target_answer w
      {| pc_path := "/v1/evaluate/monitoring"; pc_json := MonitoringPayload p;
         pc_headers := headers self; pc_catch_response := true;
         pc_name := Some "/v1/evaluate/monitoring" |}) "MONITORING" g').
    destruct (run w (CardFraudUser__handle_response _ "MONITORING") g') as [[o g2] t2].
    simpl in *. eexists _, _. repeat split; try eassumption; congruence.
  - unfold VelocityTestUser_velocity_burst.
    destruct (generate_velocity_burst_request_in_range w g) as (p & g' & Hrun & Hc & _).
    unfold mbind, prog_bind. rewrite run_bind, Hrun. cbn [client_post bind run].
    pose proof (classifier_trace w g' (target_answer w
      {| pc_path := "/v1/evaluate/auth"; pc_json := AuthPayload p;
         pc_headers := headers self; pc_catch_response := true;
         pc_name := Some "/v1/evaluate/auth [velocity]" |}) "VELOCITY") as [Hm Hl].
    specialize (Hkeep (target_answer w
      {| pc_path := "/v1/evaluate/auth"; pc_json := AuthPayload p;
         pc_headers := headers self; pc_catch_response := true;
         pc_name := Some "/v1/evaluate/auth [velocity]" |}) "VELOCITY" g').
    destruct (run w (CardFraudUser__handle_response _ "VELOCITY") g') as [[o g2] t2].
    simpl in *. eexists _, _. repeat split; try eassumption; congruence.
  - unfold SteadyStateUser_AUTH_only.
    destruct (generate_AUTH_request_in_range w g) as (p & g' & Hrun & Hc & _).
    unfold mbind, prog_bind. rewrite run_bind, Hrun. simpl.
    eexists _, []. repeat split; auto.
Qed.

Lemma failed_fetch_ends_the_hook (w : world) (g g1 : globals) (host : pyval)
    (o : outcome pyval) (t1 : list event) :
  NO_AUTH = false ->
  run w _get_shared_token g = (o, g1, t1) ->
  match o with
  | Returned _ => True
  | Exited code =>
      run w (on_test_start host) g = (Exited code, g1, start_banner host ++ t1)
  | Raised e =>
      run w (on_test_start host) g = (Raised e, g1, start_banner host ++ t1)
  end.
Proof.
  intros Hauth Hrun. destruct o as [tok|code|e]; [exact I| |].
  all: unfold on_test_start, start_banner; rewrite Hauth;
    cbv [mbind prog_bind mret prog_ret print]; cbn [run emit bind app negb];
    rewrite !run_bind, Hrun; reflexivity.
Qed.

(** X16: when auth is enabled and the eager fetch of the start hook exits
    or raises, the hook ends the same way right after the banner and the
    output of the fetch: no bulk load is sent and the closing line is not
    printed. *)
Theorem start_hook_stops_when_the_fetch_fails (w : world) (g g1 : globals)
    (host : pyval) (t1 : list event) :
  NO_AUTH = false ->
  (forall code,
     run w _get_shared_token g = (Exited code, g1, t1) ->
     run w (on_test_start host) g = (Exited code, g1, start_banner host ++ t1) /\
     bulk_loads (start_banner host ++ t1) = 0%nat) /\
  (forall e,
     run w _get_shared_token g = (Raised e, g1, t1) ->
     run w (on_test_start host) g = (Raised e, g1, start_banner host ++ t1) /\
     bulk_loads (start_banner host ++ t1) = 0%nat).
Proof.
  intros Hauth.
  assert (Hnone : forall o, run w _get_shared_token g = (o, g1, t1) ->
                            bulk_loads (start_banner host ++ t1) = 0%nat).
  { intros o Hrun. rewrite bulk_loads_app.
    pose proof (token_events_no_bulk_load w g) as Ht1. rewrite Hrun in Ht1.
    cbn [snd] in Ht1. rewrite Ht1.
    rewrite (prints_are_no_bulk_loads (start_banner host)); [reflexivity|].
    unfold start_banner. rewrite Hauth. each_event; reflexivity. }
  split; intros x Hrun; (split; [|eapply Hnone; eassumption]).
  - exact (failed_fetch_ends_the_hook w g g1 host _ t1 Hauth Hrun).
  - exact (failed_fetch_ends_the_hook w g g1 host _ t1 Hauth Hrun).
Qed.

Lemma no_bulk_loads_nil (t : list event) :
  bulk_loads t = 0%nat -> List.filter is_bulk_load t = [].
Proof. unfold bulk_loads. now destruct (List.filter is_bulk_load t). Qed.

(** X17: the one bulk-load request of the start hook goes by POST to
    [TARGET_HOST] ([http://localhost:8081] when unset) followed by
    [/v1/evaluate/rulesets/bulk-load], whatever host the run was started
    with, and it carries the [Authorization] header exactly when the shared
    token is truthy. *)
Theorem preload_goes_to_target_host (w : world) (g g1 : globals)
    (host tok : pyval) (t1 : list event) :
  run w _get_shared_token g = (Returned tok, g1, t1) ->
  exists rq,
    List.filter is_bulk_load (snd (run w (on_test_start host) g)) =
      [EUrlopen RulesetBulkLoad rq] /\
    rq_method rq = "POST" /\
    rq_url rq =
      (match environ !! "TARGET_HOST" with
       | Some h => h
       | None => "http://localhost:8081"
       end) +:+ "/v1/evaluate/rulesets/bulk-load" /\
    rq_headers rq !! "Content-Type" = Some "application/json" /\
    rq_headers rq !! "Authorization" =
      (if truthy tok then Some ("Bearer " +:+ py_str tok) else None).
Proof.
  intros Hrun. exists (bulk_load_request tok).
  destruct (start_hook_trace w g g1 host tok t1 Hrun) as (report & -> & Hprints & _).
  split; [|split; [reflexivity | split; [reflexivity|]]].
  - cbn [snd].
    change (EUrlopen RulesetBulkLoad (bulk_load_request tok) :: report ++
            [EPrint (repeat_char "=" 60)])
      with ([EUrlopen RulesetBulkLoad (bulk_load_request tok)] ++ report ++
            [EPrint (repeat_char "=" 60)]).
    rewrite !List.filter_app.
    rewrite (no_bulk_loads_nil (start_banner host)).
    2: { apply prints_are_no_bulk_loads. unfold start_banner.
         destruct NO_AUTH; each_event; reflexivity. }
    rewrite (no_bulk_loads_nil t1).
    2: { pose proof (token_events_no_bulk_load w g) as Ht1.
         now rewrite Hrun in Ht1. }
    rewrite (no_bulk_loads_nil report) by now apply prints_are_no_bulk_loads.
    reflexivity.
  - unfold bulk_load_request. cbn [rq_headers]. destruct (truthy tok).
    + split; [|apply lookup_insert_eq].
      rewrite lookup_insert_ne by discriminate. apply lookup_singleton_eq.
    + split; [apply lookup_singleton_eq | apply content_type_only].
Qed.

(** ** Callers that do not overlap *)

Lemma cached_token_in_one_turn (w : world) (g : globals) :
  NO_AUTH = false ->
  is_not_None (_cached_token g) = true ->
  run_segment w _get_shared_token g =
    (Finished (Returned (_cached_token g)), g, []).
Proof.
  intros Hauth Hc. unfold _get_shared_token. rewrite Hauth.
  cbv [mbind prog_bind mret prog_ret get_cached_token].
  cbn [run_segment bind]. rewrite Hc. reflexivity.
Qed.

Lemma truthy_is_not_None (v : pyval) : truthy v = true -> is_not_None v = true.
Proof. destruct v; simpl; congruence. Qed.

(** X18: when the first caller has its answer before the others start,
    only the first sends a token request: of [n + 1] callers, scheduled so
    that the first takes both its turns and then each of the others takes
    one, all return the token and one request is sent. *)
Theorem later_callers_use_the_cache (w : world) (g : globals) (tok : pyval)
    (n : nat) :
  NO_AUTH = false ->
  all_set [AUTH0_DOMAIN; AUTH0_CLIENT_ID; AUTH0_CLIENT_SECRET; AUTH0_AUDIENCE] = true ->
  carries_token (urlopen_answer w IdentityEndpoint token_request) tok ->
  _cached_token g = VNone ->
  exists g' t,
    interleave w (0 :: 0 :: seq 1 n)%nat
      (replicate (S n) (Waiting _get_shared_token)) g =
      (replicate (S n) (Finished (Returned tok)), g', t) /\
    _cached_token g' = tok /\
    token_requests t = 1%nat.
Proof.
  intros Hauth Hset Hanswer Hc.
  assert (Htok : is_not_None tok = true).
  { destruct Hanswer as (_ & _ & _ & _ & Ht). now apply truthy_is_not_None. }
  destruct (token_call_two_turns w tok Hauth Hset Hanswer)
    as (resume & line & Hfirst & Hsecond).
  set (g1 := {| _cached_token := tok; rng_cursor := rng_cursor g |}).
  destruct (one_turn_each w _get_shared_token (Finished (Returned tok)) (fun g => g) []
              (fun g => _cached_token g = tok))
    with (order := seq 1 n)
         (ths := Finished (Returned tok) :: replicate n (Waiting _get_shared_token))
         (g := g1)
    as (ths' & Hrun & Hlen & Hin & Hout & _ & _); auto.
  { intros g0 Hg0. split; [|assumption].
    rewrite cached_token_in_one_turn by (rewrite ?Hg0; assumption).
    now rewrite Hg0. }
  { apply NoDup_seq. }
  { intros i [Hlo Hhi]%elem_of_seq. destruct i as [|i]; [lia|].
    cbn. apply lookup_replicate_2. lia. }
  { cbn [existsb has_exited orb]. apply waiting_threads_alive. }
  rewrite iter_same in Hrun.
  exists g1, ([EUrlopen IdentityEndpoint token_request] ++ [EPrint line] ++
              concat (replicate (length (seq 1 n)) [])).
  split; [|split; [reflexivity|]].
  - cbn [interleave replicate]. unfold turn at 1.
    cbn [existsb has_exited orb]. rewrite waiting_threads_alive.
    cbn [lookup list_lookup]. rewrite (Hfirst g Hc).
    cbn [insert list_insert]. unfold turn at 1.
    cbn [existsb has_exited orb]. rewrite waiting_threads_alive.
    cbn [lookup list_lookup]. rewrite (Hsecond g).
    cbn [insert list_insert]. fold g1. rewrite Hrun.
    f_equal. f_equal.
    change (Finished (Returned tok) :: replicate n (Finished (Returned tok)))
      with (replicate (S n) (Finished (Returned tok) : thread pyval)).
    apply list_eq. intros i.
    destruct (decide (i = 0)%nat) as [-> | Hi0].
    + rewrite Hout by (rewrite elem_of_seq; lia). reflexivity.
    + destruct (decide (i <= n)%nat) as [Hi | Hi].
      * rewrite Hin by (rewrite elem_of_seq; lia).
        symmetry. apply lookup_replicate_2. lia.
      * rewrite !lookup_ge_None_2; [reflexivity | |].
        -- rewrite length_replicate. lia.
        -- rewrite Hlen. cbn [length]. rewrite length_replicate. lia.
  - rewrite !token_requests_app, token_requests_repeated.
    unfold token_requests. simpl. lia.
Qed.

End Script.

(** ** The NO_AUTH switch *)

(** C10: auth is disabled exactly when NO_AUTH is set and its value in
    lower case is [true], [1] or [yes]; unset, or set to anything else, auth
    is enabled, and then a call with an empty cache ends the process or
    starts by asking the identity endpoint for a token. *)
Theorem auth_disabled_iff_flag (py_repr : pyval -> string)
    (environ : gmap string string) :
  (NO_AUTH environ = true <->
   exists v, environ !! "NO_AUTH" = Some v /\
             (lower v = "true" \/ lower v = "1" \/ lower v = "yes")) /\
  (environ !! "NO_AUTH" = None -> NO_AUTH environ = false) /\
  NO_AUTH {["NO_AUTH" := "false"]} = false /\
  NO_AUTH {["NO_AUTH" := "TRUE "]} = false /\
  NO_AUTH {["NO_AUTH" := "on"]} = false /\
  NO_AUTH {["NO_AUTH" := "True"]} = true /\
  NO_AUTH {["NO_AUTH" := "YES"]} = true /\
  NO_AUTH {["NO_AUTH" := "1"]} = true /\
  (NO_AUTH environ = true ->
   forall w g, run w (_get_shared_token py_repr environ) g = (Returned VNone, g, [])) /\
  (NO_AUTH environ = false ->
   forall w g, _cached_token g = VNone ->
     (exists t, run w (_get_shared_token py_repr environ) g = (Exited 1, g, t)) \/
     (exists rest,
        snd (run w (_get_shared_token py_repr environ) g) =
          EUrlopen IdentityEndpoint (token_request environ) :: rest)).
Proof.
  split; [|split].
  - unfold NO_AUTH, os_environ_get, str_in.
    destruct (environ !! "NO_AUTH") as [v|]; simpl.
    + rewrite !orb_true_iff, !String.eqb_eq. split.
      * intros H. exists v. intuition discriminate.
      * intros (v' & [= <-] & H). tauto.
    + split; [discriminate | intros (v & Hv & _); discriminate].
  - unfold NO_AUTH, os_environ_get. intros ->. reflexivity.
  - repeat (split; [vm_compute; reflexivity|]). split.
    + intros Hauth w g. unfold _get_shared_token. rewrite Hauth. reflexivity.
    + intros Hauth w g Hc.
      destruct (all_set [AUTH0_DOMAIN environ; AUTH0_CLIENT_ID environ;
                         AUTH0_CLIENT_SECRET environ; AUTH0_AUDIENCE environ])
        eqn:Hset.
      * right. now apply get_shared_token_sends.
      * left. eexists. now apply missing_configuration_exits.
Qed.

(** ** Examples *)

Example card_hash_7 : CARD_HASHES !! 7%nat = Some "card_hash_0007".
Proof. reflexivity. Qed.

Example card_hash_last : last CARD_HASHES = Some "card_hash_0099".
Proof. reflexivity. Qed.

Example lower_mixed : lower "TrUe " = "true ".
Proof. reflexivity. Qed.

Example round_half_even_tie : round_half_even (25 # 2) = 12.
Proof. reflexivity. Qed.

(** [0.125] is a float, and a tie between [0.12] and [0.13]. *)
Example round2_tie_to_even : round2 0.125 = 0.12%float.
Proof. vm_compute. reflexivity. Qed.

(** The float [2.675] is below the decimal [2.675]. *)
Example round2_down : round2 2.675 = 2.67%float.
Proof. vm_compute. reflexivity. Qed.

Example round2_negative_zero : round2 (-0.001) = (-0)%float.
Proof. vm_compute. reflexivity. Qed.

Example round2_large : round2 0x1p60 = 0x1p60%float.
Proof. vm_compute. reflexivity. Qed.

(** The draw [40622921261960 / 2^53] gives the float [18.975000000000001]
    between 10 and 2000, which rounds up to [18.98]. *)
Example uniform_draw :
  (10 + (2000 - 10) * (py_float 40622921261960 * 0x1p-53))%float =
    18.975000000000001%float /\
  round2 18.975000000000001 = 18.98%float /\
  (py_float 1898 / 100)%float = 18.98%float.
Proof. repeat split; vm_compute; reflexivity. Qed.

Example amount_of_a_run :
  match fst (fst (run one_draw_world generate_AUTH_request fresh)) with
  | Returned p => amount p
  | _ => 0%float
  end = 18.98%float.
Proof. vm_compute. reflexivity. Qed.

Example hex_of_255 : hex_fixed 4 255 = "00ff".
Proof. reflexivity. Qed.

Example first_transaction_id :
  fst (fst (run good_world generate_transaction_id fresh)) =
    Returned "txn-0000000000004000".
Proof. vm_compute. reflexivity. Qed.

Example degraded_response :
  run good_world
    (CardFraudUser__handle_response sample_repr
       {| status_code := 200; text := "";
          json := inr (VDict [("engine_mode", VStr "DEGRADED");
                              ("engine_error_code", VStr "REDIS_DOWN")]) |}
       "AUTH") fresh =
    (Returned tt, fresh, [EFailure "DEGRADED: REDIS_DOWN"]).
Proof. reflexivity. Qed.

Example status_503 :
  run good_world
    (CardFraudUser__handle_response sample_repr
       {| status_code := 503; text := "Service Unavailable";
          json := inl (JSONDecodeError "Expecting value: line 1 column 1 (char 0)") |}
       "AUTH") fresh =
    (Returned tt, fresh, [EFailure "Status 503: Service Unavailable"]).
Proof. reflexivity. Qed.

Example first_fetch :
  run good_world (_get_shared_token sample_repr jwt_environ) fresh =
    (Returned (VStr "tok123"),
     {| _cached_token := VStr "tok123"; rng_cursor := 0 |},
     [EUrlopen IdentityEndpoint (token_request jwt_environ);
      EPrint "Auth0 token cached (expires in 3600s) - shared by all users"]).
Proof. reflexivity. Qed.

Example missing_configuration :
  fst (fst (run good_world (_get_shared_token sample_repr ∅) fresh)) = Exited 1.
Proof. reflexivity. Qed.

(** C4: the identity endpoint answers 500 with a body that is not UTF-8:
    the call prints its first diagnostic line and raises
    [UnicodeDecodeError]; it does not exit. *)
Theorem http_error_with_undecodable_body_raises :
  run broken_idp_world (_get_shared_token sample_repr jwt_environ) fresh =
    (Raised (UnicodeDecodeError
               "'utf-8' codec can't decode byte 0xff in position 0: invalid start byte"),
     fresh,
     [EUrlopen IdentityEndpoint (token_request jwt_environ);
      EPrint "ERROR: Auth0 token fetch failed: HTTP 500"]).
Proof.
  apply (token_fetch_undecodable_error sample_repr jwt_environ broken_idp_world
           fresh 500 "Internal Server Error"); reflexivity.
Qed.

(** C1: a 200 whose body is the JSON text [null] has no engine mode, yet
    no success is recorded for it: [data.get] raises [AttributeError], which
    [except json.JSONDecodeError] does not catch, and the classifier is left
    without a verdict. *)
Theorem null_body_records_no_verdict :
  run good_world (CardFraudUser__handle_response sample_repr null_response "AUTH")
    fresh =
    (Raised (AttributeError "'NoneType' object has no attribute 'get'"), fresh, []).
Proof.
  unfold CardFraudUser__handle_response, null_response, response_json, dict_get.
  cbn [status_code json type_name Z.eqb Pos.eqb].
  reflexivity.
Qed.

Example normal_response_is_a_success :
  run good_world (CardFraudUser__handle_response sample_repr normal_response "AUTH")
    fresh = (Returned tt, fresh, [ESuccess]).
Proof.
  apply (proj1 (proj1 (handle_response_classification sample_repr good_world fresh
                         normal_response "AUTH") eq_refl)
           [("engine_mode", VStr "NORMAL")]).
  - reflexivity.
  - right. reflexivity.
Qed.

Example huge_number_is_not_classified :
  run good_world
    (CardFraudUser__handle_response sample_repr huge_number_response "AUTH") fresh =
    (Raised (ValueError "Exceeds the limit (4300 digits) for integer string conversion: value has 5000 digits; use sys.set_int_max_str_digits() to increase the limit"),
     fresh, []).
Proof. reflexivity. Qed.

Lemma token_fetch_idempotent_witness :
  NO_AUTH jwt_environ = false /\
  run_each [good_world; broken_idp_world]
    (_get_shared_token sample_repr jwt_environ)
    {| _cached_token := VStr "tok123"; rng_cursor := 0 |} =
    ([Returned (VStr "tok123"); Returned (VStr "tok123")],
     {| _cached_token := VStr "tok123"; rng_cursor := 0 |}, []).
Proof.
  split; [reflexivity|].
  exact (proj2 (token_fetch_idempotent sample_repr jwt_environ good_world fresh _
                  (VStr "tok123") _ [good_world; broken_idp_world] eq_refl eq_refl)).
Defined.

Lemma no_auth_sends_no_credentials_witness :
  NO_AUTH no_auth_environ = true /\
  run good_world (_get_shared_token sample_repr no_auth_environ) fresh =
    (Returned VNone, fresh, []).
Proof.
  split; [reflexivity|].
  apply (no_auth_sends_no_credentials sample_repr no_auth_environ good_world fresh
           eq_refl).
Defined.


Example two_callers_in_another_order :
  exists g' t,
    interleave good_world ([0; 1] ++ [1; 0])%nat
      (replicate 2 (Waiting (_get_shared_token sample_repr jwt_environ))) fresh =
      (replicate 2 (Finished (Returned (VStr "tok123"))), g', t) /\
    token_requests t = 2%nat.
Proof.
  apply (overlapping_callers_each_fetch sample_repr jwt_environ good_world fresh
           (VStr "tok123") 2 [0; 1]%nat [1; 0]%nat).
  - reflexivity.
  - reflexivity.
  - eexists _, _. repeat split; reflexivity.
  - reflexivity.
  - reflexivity.
  - apply perm_swap.
Qed.

(** C8: the steady-state class is one of the user classes, and its task
    records no verdict on a response that the tasks of the standard class
    mark as a success. *)
Lemma steady_state_task_classifies_nothing :
  In (SteadyStateUser sample_repr jwt_environ) (user_classes sample_repr jwt_environ) /\
  In (1%nat, SteadyStateUser_AUTH_only) (tasks (SteadyStateUser sample_repr jwt_environ)) /\
  List.filter is_mark
    (snd (run good_world (SteadyStateUser_AUTH_only plain_user) fresh)) = [] /\
  List.filter is_mark
    (snd (run good_world (CardFraudUser_AUTH_evaluation sample_repr plain_user) fresh)) =
    [ESuccess].
Proof.
  split; [simpl; tauto|]. split; [left; reflexivity|].
  split; vm_compute; reflexivity.
Qed.

Lemma start_hook_preloads_rulesets_witness :
  bulk_loads
    (snd (run good_world
            (on_test_start sample_repr jwt_environ (VStr "http://localhost:8081"))
            fresh)) = 1%nat.
Proof.
  edestruct (start_hook_preloads_rulesets sample_repr jwt_environ good_world fresh)
    as (report & _ & Hone & _); [reflexivity | exact Hone].
Defined.

(** ** Examples of the further properties *)

Lemma first_fetch_stores_the_token_witness :
  run no_expiry_world (_get_shared_token sample_repr jwt_environ) fresh =
    (Returned (VStr "tok123"),
     {| _cached_token := VStr "tok123"; rng_cursor := 0 |},
     [EUrlopen IdentityEndpoint (token_request jwt_environ);
      EPrint "Auth0 token cached (expires in unknowns) - shared by all users"]).
Proof.
  eapply (first_fetch_stores_the_token sample_repr jwt_environ no_expiry_world fresh
            _ [("access_token", VStr "tok123")] (VStr "tok123")); reflexivity.
Defined.

Lemma falsy_token_is_refused_witness :
  run empty_token_world (_get_shared_token sample_repr jwt_environ) fresh =
    (Exited 1, fresh,
     [EUrlopen IdentityEndpoint (token_request jwt_environ);
      EPrint "ERROR: No access_token in Auth0 response"]).
Proof.
  eapply (falsy_token_is_refused sample_repr jwt_environ empty_token_world fresh
            _ [("access_token", VStr "")]); reflexivity.
Defined.

Lemma unset_or_empty_variable_exits_witness :
  fst (fst (run good_world (_get_shared_token sample_repr empty_audience_environ)
              fresh)) = Exited 1 /\
  token_requests
    (snd (run good_world (_get_shared_token sample_repr empty_audience_environ)
            fresh)) = 0%nat.
Proof.
  rewrite (unset_or_empty_variable_exits sample_repr empty_audience_environ
             good_world fresh "AUTH0_AUDIENCE" eq_refl eq_refl
             (or_intror (or_intror (or_intror (or_introl eq_refl))))
             (or_intror eq_refl)).
  split; reflexivity.
Defined.

Lemma handle_response_non_object_witness :
  run good_world (CardFraudUser__handle_response sample_repr list_response "AUTH")
    fresh =
    (Raised (AttributeError "'list' object has no attribute 'get'"), fresh, []).
Proof.
  apply (handle_response_non_object sample_repr good_world fresh list_response
           "AUTH" (VList [])); [reflexivity | reflexivity | discriminate].
Defined.

Lemma handle_response_other_modes_witness :
  run good_world (CardFraudUser__handle_response sample_repr shadow_response "AUTH")
    fresh = (Returned tt, fresh, [ESuccess]).
Proof.
  apply (handle_response_other_modes sample_repr good_world fresh shadow_response
           "AUTH" [("engine_mode", VStr "SHADOW")] (VStr "SHADOW")); reflexivity.
Defined.

Lemma failure_message_is_truncated_witness :
  exists shown,
    run good_world
      (CardFraudUser__handle_response sample_repr long_error_response "AUTH") fresh =
      (Returned tt, fresh, [EFailure ("Status 500: " +:+ shown)]) /\
    String.length shown = 100%nat.
Proof.
  destruct (failure_message_is_truncated sample_repr good_world fresh
              long_error_response "AUTH") as (shown & Hrun & Hlen & _);
    [discriminate | discriminate | discriminate |].
  exists shown. split; [exact Hrun | exact Hlen].
Defined.

Lemma user_construction_follows_the_token_call_witness :
  run no_host_world (init (HighVolumeUser sample_repr jwt_environ)) fresh =
    (Raised (LocustError "You must specify the base host."), fresh, []) /\
  fst (fst (run empty_token_world
              (init (HighVolumeUser sample_repr jwt_environ)) fresh)) = Exited 1.
Proof.
  split.
  - apply (proj1 (user_construction_follows_the_token_call sample_repr
                    jwt_environ (HighVolumeUser sample_repr jwt_environ)
                    no_host_world fresh fresh []
                    (or_intror (or_introl eq_refl)))).
    reflexivity.
  - rewrite (proj1 (proj2 (proj2 (user_construction_follows_the_token_call
                                    sample_repr jwt_environ
                                    (HighVolumeUser sample_repr jwt_environ)
                                    empty_token_world fresh fresh _
                                    (or_intror (or_introl eq_refl))) eq_refl))
               1 eq_refl).
    reflexivity.
Defined.

Lemma tasks_post_once_with_the_user_headers_witness :
  exists c verdicts,
    snd (run good_world (VelocityTestUser_velocity_burst sample_repr plain_user) fresh) =
      EPost c :: verdicts /\
    pc_headers c = headers plain_user.
Proof.
  destruct (tasks_post_once_with_the_user_headers sample_repr jwt_environ
              (VelocityTestUser sample_repr jwt_environ) 1
              (VelocityTestUser_velocity_burst sample_repr) plain_user good_world fresh)
    as (c & verdicts & Hrun & Hheaders & _).
  - simpl. tauto.
  - simpl. tauto.
  - exists c, verdicts. split; [exact Hrun | exact Hheaders].
Defined.

Lemma start_hook_stops_when_the_fetch_fails_witness :
  fst (fst (run good_world (on_test_start sample_repr ∅ VNone) fresh)) = Exited 1 /\
  bulk_loads (snd (run good_world (on_test_start sample_repr ∅ VNone) fresh)) = 0%nat.
Proof.
  assert (Hauth : NO_AUTH (∅ : gmap string string) = false) by reflexivity.
  destruct (proj1 (start_hook_stops_when_the_fetch_fails sample_repr ∅ good_world
                     fresh fresh VNone _ Hauth) 1 eq_refl) as [Hrun Hnone].
  rewrite Hrun. split; [reflexivity | exact Hnone].
Defined.

Lemma preload_goes_to_target_host_witness :
  exists rq,
    List.filter is_bulk_load
      (snd (run good_world
              (on_test_start sample_repr jwt_environ (VStr "http://staging:9000"))
              fresh)) = [EUrlopen RulesetBulkLoad rq] /\
    rq_url rq = "http://localhost:8081/v1/evaluate/rulesets/bulk-load".
Proof.
  edestruct (preload_goes_to_target_host sample_repr jwt_environ good_world fresh)
    as (rq & Hone & _ & Hurl & _); [reflexivity|].
  exists rq. split; [exact Hone | exact Hurl].
Defined.

Lemma later_callers_use_the_cache_witness :
  exists g' t,
    interleave good_world [0; 0; 1; 2]%nat
      (replicate 3 (Waiting (_get_shared_token sample_repr jwt_environ))) fresh =
      (replicate 3 (Finished (Returned (VStr "tok123"))), g', t) /\
    _cached_token g' = VStr "tok123" /\
    token_requests t = 1%nat.
Proof.
  apply (later_callers_use_the_cache sample_repr jwt_environ good_world fresh
           (VStr "tok123") 2).
  - reflexivity.
  - reflexivity.
  - eexists _, _. repeat split; reflexivity.
  - reflexivity.
Defined.
